(** * provider-gitlab: the reconciliation helpers and controllers, embedded

    A shallow embedding of the Go code of the Crossplane provider for GitLab:
    the client helpers for project variables and project hooks
    (pkg/clients/projects), the group member controller
    (pkg/controller/groups/members) and, as far as the repository's tests pin
    them down, the deploy key and project controllers.

    Conventions of the embedding.
    - A Go pointer that is only read or compared by value ([*bool], [*string],
      [*int]) is an [option]: [None] is nil, [Some v] points to [v].  Where the
      code stores the address of a field of the remote object the embedding
      stores the field's value: no function below writes through such a
      pointer.
    - Go's [int] is [Z]; [string] is [string] (a sequence of bytes).
    - A value of interface type [error] is an [option Go.error]: [None] is nil.
    - A method that updates the managed resource in place returns the updated
      resource next to its Go results.
    - Calls to the GitLab API and to the Kubernetes API are recorded in a
      trace, so that "no call was made" is a statement about the trace. *)

From stdpp Require Import base strings gmap pretty.
From Stdlib Require Import Ascii ZArith Lia.

Open Scope Z_scope.

(* ===================================================================== *)
(** * Part I: definitions *)
(* ===================================================================== *)

(** ** The Go runtime and standard library, as far as the code uses them *)

Module Go.

(** The two sentinel errors of package strconv. *)
Inductive NumErrKind : Type := ErrSyntax | ErrRange.

(** The dynamic values of interface type [error] the code meets:
    [fundamental] is what [errors.New] of github.com/pkg/errors builds,
    [withStack] what [errors.Wrap] builds (a message in front of a cause),
    [NumError] is [*strconv.NumError], and [otherError] stands for any other
    implementation of the interface, given by the name of its dynamic type
    and the text its [Error()] method returns (for instance
    [*gitlab.ErrorResponse]). *)
Inductive error : Type :=
| fundamental (msg : string)
| withStack (cause : error) (msg : string)
| NumError (Func Num : string) (Err : NumErrKind)
| otherError (dynType msg : string).

Definition dquote : string := String "034"%char EmptyString.

Definition NumErrKind_text (k : NumErrKind) : string :=
  match k with
  | ErrSyntax => "invalid syntax"
  | ErrRange => "value out of range"
  end.

(** The [Error()] method.  [NumError] prints its input between double quotes;
    the escapes [strconv.Quote] adds for quotes, backslashes and bytes that
    are not printable are left out. *)
Fixpoint Error (e : error) : string :=
  match e with
  | fundamental msg => msg
  | withStack cause msg => msg +:+ ": " +:+ Error cause
  | NumError f num k =>
      "strconv." +:+ f +:+ ": parsing " +:+ dquote +:+ num +:+ dquote +:+ ": "
        +:+ NumErrKind_text k
  | otherError _ msg => msg
  end.

(** [errors.New(msg)]. *)
Definition New (msg : string) : option error := Some (fundamental msg).

(** [errors.Wrap(err, msg)]: nil when [err] is nil. *)
Definition Wrap (err : option error) (msg : string) : option error :=
  match err with
  | None => None
  | Some e => Some (withStack e msg)
  end.

(** [strings.HasPrefix(s, prefix)]. *)
Fixpoint HasPrefix (s prefix : string) {struct prefix} : bool :=
  match prefix, s with
  | EmptyString, _ => true
  | String _ _, EmptyString => false
  | String c prefix', String d s' => Ascii.eqb c d && HasPrefix s' prefix'
  end.

(** [strings.Contains(s, substr)]: [substr] occurs in [s] at some offset. *)
Fixpoint Contains (s substr : string) : bool :=
  HasPrefix s substr ||
  match s with
  | EmptyString => false
  | String _ s' => Contains s' substr
  end.

(** The bounds of [int] on a 64-bit platform. *)
Definition minInt : Z := - 2 ^ 63.
Definition maxInt : Z := 2 ^ 63 - 1.

Definition digit (c : ascii) : option Z :=
  let n := Z.of_N (Ascii.N_of_ascii c) in
  if (48 <=? n) && (n <=? 57) then Some (n - 48) else None.

Fixpoint digits (acc : Z) (s : string) : option Z :=
  match s with
  | EmptyString => Some acc
  | String c s' =>
      match digit c with
      | Some d => digits (acc * 10 + d) s'
      | None => None
      end
  end.

(** One decimal digit at least. *)
Definition magnitude (s : string) : option Z :=
  match s with
  | EmptyString => None
  | String _ _ => digits 0 s
  end.

(** An optional sign, then decimal digits. *)
Definition parseDecimal (s : string) : option Z :=
  match s with
  | EmptyString => None
  | String c s' =>
      if Ascii.eqb c "+" then magnitude s'
      else if Ascii.eqb c "-" then Z.opp <$> magnitude s'
      else magnitude s
  end.

(** [strconv.Atoi(s)]: the integer, or the [*NumError] (a syntax error for
    the empty string and for anything that is not an optionally signed run of
    decimal digits, a range error for a number outside [int]).  The integer
    Go returns beside an error is not modelled: no caller reads it. *)
Definition Atoi (s : string) : Z + error :=
  match parseDecimal s with
  | None => inr (NumError "Atoi" s ErrSyntax)
  | Some n =>
      if (minInt <=? n) && (n <=? maxInt) then inl n
      else inr (NumError "Atoi" s ErrRange)
  end.

(** [strconv.Itoa(n)]. *)
Definition Itoa (n : Z) : string := pretty n.

(** [cmp.Equal] on two pointers of one type: equal when both are nil, or both
    are not and the values pointed to are equal.  ([cmpopts.EquateEmpty]
    changes the comparison of slices and maps only.) *)
Definition ptrEqual {A : Type} (eq : A → A → bool) (x y : option A) : bool :=
  match x, y with
  | None, None => true
  | Some a, Some b => eq a b
  | _, _ => false
  end.

(** What a call evaluates to: a result, or a run-time panic (a nil pointer
    dereference). *)
Inductive outcome (A : Type) : Type :=
| Returns (a : A)
| Panics.
Arguments Returns {A} a.
Arguments Panics {A}.

End Go.

(** ** Kubernetes metadata and the Crossplane runtime *)

Module Xp.

(** [xpv1.Reference], [xpv1.Selector] and [xpv1.SecretKeySelector]: the code
    embedded here stores them and never reads inside them. *)
Record Reference : Type := { RefName : string }.
Record Selector : Type := { MatchLabels : gmap string string }.
Record SecretKeySelector : Type :=
  { SecretName : string; SecretNamespace : string; SecretKey : string }.

(** [metav1.Time], as seconds since the epoch. *)
Definition Time : Type := Z.

(** [xpv1.Condition], without its transition time, which [Equal] ignores. *)
Record Condition : Type :=
  { Type' : string; Status : string; Reason : string; Message : string }.

(** [xpv1.Available()] and [xpv1.Creating()]. *)
Definition Available : Condition :=
  {| Type' := "Ready"; Status := "True"; Reason := "Available"; Message := "" |}.
Definition Creating : Condition :=
  {| Type' := "Ready"; Status := "False"; Reason := "Creating"; Message := "" |}.

Definition Condition_Equal (a b : Condition) : bool :=
  String.eqb (Type' a) (Type' b) && String.eqb (Status a) (Status b)
  && String.eqb (Reason a) (Reason b) && String.eqb (Message a) (Message b).

(** One round of the loop of [ConditionedStatus.SetConditions]: a condition
    of the same type is replaced unless it is equal; a new type is appended. *)
Definition setCondition (cs : list Condition) (new : Condition) : list Condition :=
  if existsb (λ c, String.eqb (Type' c) (Type' new)) cs
  then map (λ c, if String.eqb (Type' c) (Type' new)
                 then (if Condition_Equal c new then c else new) else c) cs
  else cs ++ [new].

Definition SetConditions (cs : list Condition) (new : list Condition) : list Condition :=
  fold_left setCondition new cs.

(** [metav1.ObjectMeta]: the name and the annotations. *)
Record ObjectMeta : Type :=
  { Name : string; Annotations : gmap string string }.

Definition AnnotationKeyExternalName : string := "crossplane.io/external-name".

(** [meta.GetExternalName]: the annotation, or the empty string. *)
Definition GetExternalName (o : ObjectMeta) : string :=
  default "" (Annotations o !! AnnotationKeyExternalName).

(** [meta.SetExternalName]. *)
Definition SetExternalName (o : ObjectMeta) (name : string) : ObjectMeta :=
  {| Name := Name o;
     Annotations := <[AnnotationKeyExternalName := name]> (Annotations o) |}.

(** The results of package managed.  A nil map of connection details is the
    empty map. *)
Record ExternalObservation : Type :=
  { ResourceExists : bool;
    ResourceUpToDate : bool;
    ResourceLateInitialized : bool;
    ObservedConnectionDetails : gmap string string }.

Record ExternalCreation : Type :=
  { ExternalNameAssigned : bool;
    CreatedConnectionDetails : gmap string string }.

Record ExternalUpdate : Type :=
  { UpdatedConnectionDetails : gmap string string }.

(** The zero values [managed.ExternalObservation{}] and its siblings. *)
Definition noObservation : ExternalObservation :=
  {| ResourceExists := false; ResourceUpToDate := false;
     ResourceLateInitialized := false; ObservedConnectionDetails := ∅ |}.
Definition noCreation : ExternalCreation :=
  {| ExternalNameAssigned := false; CreatedConnectionDetails := ∅ |}.
Definition noUpdate : ExternalUpdate :=
  {| UpdatedConnectionDetails := ∅ |}.

(** A value of interface type [resource.Managed], seen from the controller
    of the resource type [R]: the nil interface, a pointer to an [R], or a
    value of another dynamic type.  The type assertion of a method to the
    pointer type succeeds on the second only.  (An interface that holds a
    nil pointer of that type, which passes the assertion and panics at the
    first field access, is left out.) *)
Inductive Managed (R : Type) : Type :=
| nilManaged
| managed (cr : R)
| otherManaged (kind : string).
Arguments nilManaged {R}.
Arguments managed {R} cr.
Arguments otherManaged {R} kind.

(** Operations that call a remote API: a state monad over the trace of the
    calls made so far, [C] being the type of the calls. *)
Definition Op (C A : Type) : Type := list C → A * list C.

#[global] Instance Op_ret {C : Type} : MRet (Op C) := λ A a log, (a, log).

#[global] Instance Op_bind {C : Type} : MBind (Op C) :=
  λ A B k m log, let '(a, log') := m log in k a log'.

(** The call [c] is made and answers [r]. *)
Definition perform {C A : Type} (c : C) (r : A) : Op C A :=
  λ log, (r, log ++ [c]).

End Xp.

(** ** The wire structs of github.com/xanzy/go-gitlab *)

Module Gitlab.

(** [*gitlab.Response]: the HTTP status of the answer. *)
Record Response : Type := { StatusCode : Z }.

(** [gitlab.ISOTime]: a date. *)
Record ISOTime : Type := { year : Z; month : Z; day : Z }.

Definition zeroPad (width : nat) (n : Z) : string :=
  let s := pretty n in
  String.concat "" (replicate (width - String.length s) "0") +:+ s.

(** [ISOTime.String()]: the layout 2006-01-02. *)
Definition ISOTime_String (t : ISOTime) : string :=
  zeroPad 4 (year t) +:+ "-" +:+ zeroPad 2 (month t) +:+ "-" +:+ zeroPad 2 (day t).

Record GroupMemberSAMLIdentity : Type :=
  { ExternUID : string; Provider : string; SAMLProviderID : Z }.

Record GroupMember : Type :=
  { gmID : Z;
    gmUsername : string;
    gmName : string;
    gmState : string;
    gmAvatarURL : string;
    gmWebURL : string;
    gmExpiresAt : option ISOTime;
    gmAccessLevel : Z;
    gmGroupSAMLIdentity : option GroupMemberSAMLIdentity }.

Record AddGroupMemberOptions : Type :=
  { addUserID : option Z; addAccessLevel : option Z; addExpiresAt : option string }.

Record EditGroupMemberOptions : Type :=
  { editAccessLevel : option Z; editExpiresAt : option string }.

(** [gitlab.ProjectVariable]; [VariableType] is a [VariableTypeValue], a
    string. *)
Record ProjectVariable : Type :=
  { pvKey : string;
    pvValue : string;
    pvVariableType : string;
    pvProtected : bool;
    pvMasked : bool;
    pvEnvironmentScope : string }.

Record CreateProjectVariableOptions : Type :=
  { cKey : option string;
    cValue : option string;
    cVariableType : option string;
    cProtected : option bool;
    cMasked : option bool;
    cEnvironmentScope : option string }.

Record UpdateProjectVariableOptions : Type :=
  { uValue : option string;
    uVariableType : option string;
    uProtected : option bool;
    uMasked : option bool;
    uEnvironmentScope : option string }.

(** [gitlab.ProjectHook], the fields the client reads. *)
Record ProjectHook : Type :=
  { phID : Z;
    phURL : string;
    phConfidentialNoteEvents : bool;
    phPushEvents : bool;
    phPushEventsBranchFilter : string;
    phIssuesEvents : bool;
    phConfidentialIssuesEvents : bool;
    phMergeRequestsEvents : bool;
    phTagPushEvents : bool;
    phNoteEvents : bool;
    phJobEvents : bool;
    phPipelineEvents : bool;
    phWikiPageEvents : bool;
    phEnableSSLVerification : bool;
    phCreatedAt : option Xp.Time }.

(** [gitlab.ProjectDeployKey]. *)
Record ProjectDeployKey : Type :=
  { dkID : Z;
    dkTitle : string;
    dkKey : string;
    dkCreatedAt : option Xp.Time;
    dkCanPush : bool }.

Record AddDeployKeyOptions : Type :=
  { addTitle : option string; addKey : option string; addCanPush : option bool }.

Record UpdateDeployKeyOptions : Type :=
  { updTitle : option string; updCanPush : option bool }.

End Gitlab.

(** ** pkg/clients: helpers shared by the clients *)

Module Clients.

(** Modelled from the spec: [clients.IsResponseNotFound] is declared in
    pkg/clients, which is not among the sources; only its call in the member
    controller is.  It is the test for "a not-found response (HTTP 404)":
    the response is there and its status is 404. *)
Definition IsResponseNotFound (res : option Gitlab.Response) : bool :=
  match res with
  | Some r => Gitlab.StatusCode r =? 404
  | None => false
  end.

End Clients.

(** ** apis/projects/v1alpha1: the Variable resource *)

Module VariableTypes.

(** [VariableType] is a string type; its two constants. *)
Definition VariableTypeEnvVar : string := "env_var".
Definition VariableTypeFile : string := "file".

Record VariableParameters : Type :=
  { ProjectID : option Z;
    ProjectIDRef : option Xp.Reference;
    ProjectIDSelector : option Xp.Selector;
    Key : string;
    Value : string;
    Masked : option bool;
    Protected : option bool;
    VariableType : option string;
    EnvironmentScope : option string }.

End VariableTypes.

(** ** pkg/clients/projects: project variables *)

Module VariableClient.
Import Go Gitlab VariableTypes.

Definition errVariableNotFound : string := "404 Variable Not Found".

Definition IsErrorVariableNotFound (err : option error) : bool :=
  match err with
  | None => false
  | Some e => Contains (Error e) errVariableNotFound
  end.

(** [LateInitializeVariable(in, variable)]; the updated [*in] is returned.
    [in] is taken as not nil: the controller passes the address of a field. *)
Definition LateInitializeVariable
    (p : VariableParameters) (variable : option ProjectVariable) : VariableParameters :=
  match variable with
  | None => p
  | Some v =>
      {| ProjectID := ProjectID p;
         ProjectIDRef := ProjectIDRef p;
         ProjectIDSelector := ProjectIDSelector p;
         Key := Key p;
         Value := Value p;
         Masked := if Masked p is None then Some (pvMasked v) else Masked p;
         Protected := if Protected p is None then Some (pvProtected v) else Protected p;
         VariableType :=
           if VariableType p is None then Some (pvVariableType v) else VariableType p;
         EnvironmentScope :=
           if EnvironmentScope p is None then Some (pvEnvironmentScope v)
           else EnvironmentScope p |}
  end.

Definition VariableToParameters (g : ProjectVariable) : VariableParameters :=
  {| ProjectID := None;
     ProjectIDRef := None;
     ProjectIDSelector := None;
     Key := pvKey g;
     Value := pvValue g;
     Masked := Some (pvMasked g);
     Protected := Some (pvProtected g);
     VariableType := Some (pvVariableType g);
     EnvironmentScope := Some (pvEnvironmentScope g) |}.

Definition GenerateCreateVariableOptions (p : VariableParameters) : CreateProjectVariableOptions :=
  {| cKey := Some (Key p);
     cValue := Some (Value p);
     cVariableType := VariableType p;
     cProtected := Protected p;
     cMasked := Masked p;
     cEnvironmentScope := EnvironmentScope p |}.

Definition GenerateUpdateVariableOptions (p : VariableParameters) : UpdateProjectVariableOptions :=
  {| uValue := Some (Value p);
     uVariableType := VariableType p;
     uProtected := Protected p;
     uMasked := Masked p;
     uEnvironmentScope := EnvironmentScope p |}.

(** [cmp.Equal] on two [VariableParameters] under the three options of
    [IsVariableUpToDate]: the field [ProjectID] is skipped ([IgnoreFields]),
    [ProjectIDRef] and [ProjectIDSelector] are skipped by their types
    ([IgnoreTypes]), and [EquateEmpty] finds no slice or map to act on.  The
    other fields are compared in turn, pointers as [ptrEqual] does. *)
Definition cmpEqual (x y : VariableParameters) : bool :=
  String.eqb (Key x) (Key y)
  && String.eqb (Value x) (Value y)
  && ptrEqual Bool.eqb (Masked x) (Masked y)
  && ptrEqual Bool.eqb (Protected x) (Protected y)
  && ptrEqual String.eqb (VariableType x) (VariableType y)
  && ptrEqual String.eqb (EnvironmentScope x) (EnvironmentScope y).

(** [IsVariableUpToDate(p, g)]: [*g] is read only when [p] is not nil. *)
Definition IsVariableUpToDate
    (p : option VariableParameters) (g : option ProjectVariable) : outcome bool :=
  match p with
  | None => Returns true
  | Some p =>
      match g with
      | None => Panics
      | Some g => Returns (cmpEqual p (VariableToParameters g))
      end
  end.

End VariableClient.

(** ** apis/projects/v1alpha1: the Hook resource *)

Module HookTypes.

(** Modelled from the spec: the declaration of [HookParameters] is not among
    the sources; these are the fields the client under pkg/clients/projects
    and its tests read and write, all of them pointers. *)
Record HookParameters : Type :=
  { URL : option string;
    ConfidentialNoteEvents : option bool;
    PushEvents : option bool;
    PushEventsBranchFilter : option string;
    IssuesEvents : option bool;
    ConfidentialIssuesEvents : option bool;
    MergeRequestsEvents : option bool;
    TagPushEvents : option bool;
    NoteEvents : option bool;
    JobEvents : option bool;
    PipelineEvents : option bool;
    WikiPageEvents : option bool;
    EnableSSLVerification : option bool;
    Token : option string }.

End HookTypes.

(** ** pkg/clients/projects: project hooks *)

Module HookClient.
Import Go Gitlab HookTypes.

Definition errHookNotFound : string := "404 Not found".

Definition IsErrorHookNotFound (err : option error) : bool :=
  match err with
  | None => false
  | Some e => Contains (Error e) errHookNotFound
  end.

(** The assignment [if in.F == nil { in.F = &hook.F }]. *)
Definition lateInit {A : Type} (field : option A) (remote : A) : option A :=
  if field is None then Some remote else field.

Section WithClients.

(** [clients.LateInitializeStringPtr] is declared in pkg/clients, which is
    not among the sources: it is a parameter of the embedding. *)
Variable LateInitializeStringPtr : option string → string → option string.

(** [LateInitializeHook(in, hook)]; the updated [*in] is returned. *)
Definition LateInitializeHook (p : HookParameters) (hook : option ProjectHook) : HookParameters :=
  match hook with
  | None => p
  | Some h =>
      {| URL := URL p;
         ConfidentialNoteEvents :=
           lateInit (ConfidentialNoteEvents p) (phConfidentialNoteEvents h);
         PushEvents := lateInit (PushEvents p) (phPushEvents h);
         PushEventsBranchFilter :=
           LateInitializeStringPtr (PushEventsBranchFilter p) (phPushEventsBranchFilter h);
         IssuesEvents := lateInit (IssuesEvents p) (phIssuesEvents h);
         ConfidentialIssuesEvents :=
           lateInit (ConfidentialIssuesEvents p) (phConfidentialIssuesEvents h);
         MergeRequestsEvents := lateInit (MergeRequestsEvents p) (phMergeRequestsEvents h);
         TagPushEvents := lateInit (TagPushEvents p) (phTagPushEvents h);
         NoteEvents := lateInit (NoteEvents p) (phNoteEvents h);
         JobEvents := lateInit (JobEvents p) (phJobEvents h);
         PipelineEvents := lateInit (PipelineEvents p) (phPipelineEvents h);
         WikiPageEvents := lateInit (WikiPageEvents p) (phWikiPageEvents h);
         EnableSSLVerification :=
           lateInit (EnableSSLVerification p) (phEnableSSLVerification h);
         Token := Token p |}
  end.

End WithClients.

End HookClient.

(** ** apis/groups/v1alpha1: the group Member resource *)

Module GroupMemberTypes.

Record MemberSAMLIdentity : Type :=
  { ExternUID : string; Provider : string; SAMLProviderID : Z }.

(** [AccessLevelValue] is an integer type. *)
Record MemberParameters : Type :=
  { GroupID : option Z;
    GroupIDRef : option Xp.Reference;
    GroupIDSelector : option Xp.Selector;
    UserID : Z;
    AccessLevel : Z;
    ExpiresAt : option string }.

Record MemberObservation : Type :=
  { Username : string;
    Name : string;
    State : string;
    AvatarURL : string;
    WebURL : string;
    GroupSAMLIdentity : option MemberSAMLIdentity }.

Record MemberSpec : Type := { ForProvider : MemberParameters }.

Record MemberStatus : Type :=
  { Conditions : list Xp.Condition; AtProvider : MemberObservation }.

Record Member : Type :=
  { Meta : Xp.ObjectMeta; Spec : MemberSpec; Status : MemberStatus }.

End GroupMemberTypes.

(** ** pkg/controller/groups/members: the group member controller *)

Module Members.
Import Go Xp Gitlab GroupMemberTypes.

Definition errNotMember : string :=
  "managed resource is not a Gitlab Group Member custom resource".
Definition errIDNotInt : string := "ID is not an integer value".
Definition errCreateFailed : string := "cannot create Gitlab Group Member".
Definition errUpdateFailed : string := "cannot update Gitlab Group Member".
Definition errDeleteFailed : string := "cannot delete Gitlab Group Member".
Definition errGetFailed : string := "cannot get Gitlab Group Member".
Definition errMissingGroupID : string := "Group ID not set".

(** The functions of pkg/clients/groups the controller calls.  The package
    is not among the sources (its tests are): they are parameters. *)
Class GroupsPkg : Type :=
  { GenerateMemberObservation : option GroupMember → MemberObservation;
    GenerateAddMemberOptions : MemberParameters → AddGroupMemberOptions;
    GenerateEditMemberOptions : MemberParameters → EditGroupMemberOptions }.

(** [groups.MemberClient]: what each method answers. *)
Record MemberClient : Type :=
  { GetGroupMember : Z → Z → option GroupMember * option Response * option error;
    AddGroupMember :
      Z → AddGroupMemberOptions → option GroupMember * option Response * option error;
    EditGroupMember :
      Z → Z → EditGroupMemberOptions → option GroupMember * option Response * option error;
    RemoveGroupMember : Z → Z → option Response * option error }.

(** The calls the controller makes to the GitLab API. *)
Inductive Call : Type :=
| CallGetGroupMember (gid user : Z)
| CallAddGroupMember (gid : Z) (opt : AddGroupMemberOptions)
| CallEditGroupMember (gid user : Z) (opt : EditGroupMemberOptions)
| CallRemoveGroupMember (gid user : Z).

(** [external]; its [kube] field is read by no method. *)
Record external : Type := { client : MemberClient }.

Definition derefString (s : option string) : string :=
  match s with
  | Some v => v
  | None => ""
  end.

(** The dynamic values of the [interface{}] argument of [isoTimeToString]:
    nil, a [*gitlab.ISOTime] (itself nil or not), or a value of another
    type. *)
Inductive interface : Type :=
| nilInterface
| isoTimePtr (v : option ISOTime)
| otherValue (dynType : string).

Definition isoTimeToString (i : interface) : string :=
  match i with
  | isoTimePtr (Some v) => ISOTime_String v
  | _ => ""
  end.

(** [isMemberUpToDate(p, g)], both pointers taken as not nil.  The
    conversions [int(...)] of the two access levels are the identity on [Z];
    [cmp.Equal] on two integers or two strings is their equality. *)
Definition isMemberUpToDate (p : MemberParameters) (g : GroupMember) : bool :=
  if negb (AccessLevel p =? gmAccessLevel g) then false
  else if negb (String.eqb (derefString (ExpiresAt p))
                  (isoTimeToString (isoTimePtr (gmExpiresAt g)))) then false
  else true.

Section Controller.
Context `{GroupsPkg}.

(** What a method leaves behind: the managed resource as the call left it,
    and the two Go results; or a panic. *)
Definition result (A : Type) : Type := outcome (Managed Member * A * option error).

Definition Observe (e : external) (mg : Managed Member)
  : Op Call (result ExternalObservation) :=
  match mg with
  | managed cr =>
      match GroupID (ForProvider (Spec cr)) with
      | None => mret (Returns (mg, noObservation, New errMissingGroupID))
      | Some gid =>
          '(groupMember, res, err) ←
            perform (CallGetGroupMember gid (UserID (ForProvider (Spec cr))))
              (GetGroupMember (client e) gid (UserID (ForProvider (Spec cr))));
          match err with
          | Some _ =>
              if Clients.IsResponseNotFound res
              then mret (Returns (mg, noObservation, None))
              else mret (Returns (mg, noObservation, Wrap err errGetFailed))
          | None =>
              let cr' :=
                {| Meta := Meta cr;
                   Spec := Spec cr;
                   Status :=
                     {| Conditions := SetConditions (Conditions (Status cr)) [Available];
                        AtProvider := GenerateMemberObservation groupMember |} |} in
              match groupMember with
              | None => mret Panics
              | Some g =>
                  mret (Returns
                    (managed cr',
                     {| ResourceExists := true;
                        ResourceUpToDate := isMemberUpToDate (ForProvider (Spec cr')) g;
                        ResourceLateInitialized := false;
                        ObservedConnectionDetails := ∅ |},
                     None))
              end
          end
      end
  | _ => mret (Returns (mg, noObservation, New errNotMember))
  end.

Definition Create (e : external) (mg : Managed Member)
  : Op Call (result ExternalCreation) :=
  match mg with
  | managed cr =>
      match GroupID (ForProvider (Spec cr)) with
      | None => mret (Returns (mg, noCreation, New errMissingGroupID))
      | Some gid =>
          let opt := GenerateAddMemberOptions (ForProvider (Spec cr)) in
          '(_, _, err) ←
            perform (CallAddGroupMember gid opt) (AddGroupMember (client e) gid opt);
          match err with
          | Some _ => mret (Returns (mg, noCreation, Wrap err errCreateFailed))
          | None =>
              mret (Returns
                (mg,
                 {| ExternalNameAssigned := true; CreatedConnectionDetails := ∅ |},
                 None))
          end
      end
  | _ => mret (Returns (mg, noCreation, New errNotMember))
  end.

Definition Update (e : external) (mg : Managed Member)
  : Op Call (result ExternalUpdate) :=
  match mg with
  | managed cr =>
      match GroupID (ForProvider (Spec cr)) with
      | None => mret (Returns (mg, noUpdate, New errMissingGroupID))
      | Some gid =>
          let user := UserID (ForProvider (Spec cr)) in
          let opt := GenerateEditMemberOptions (ForProvider (Spec cr)) in
          '(_, _, err) ←
            perform (CallEditGroupMember gid user opt)
              (EditGroupMember (client e) gid user opt);
          mret (Returns (mg, noUpdate, Wrap err errUpdateFailed))
      end
  | _ => mret (Returns (mg, noUpdate, New errNotMember))
  end.

(** [Delete] has one Go result, the error; the unit stands for the other. *)
Definition Delete (e : external) (mg : Managed Member) : Op Call (result ()) :=
  match mg with
  | managed cr =>
      match GroupID (ForProvider (Spec cr)) with
      | None => mret (Returns (mg, (), New errMissingGroupID))
      | Some gid =>
          let user := UserID (ForProvider (Spec cr)) in
          '(_, err) ←
            perform (CallRemoveGroupMember gid user)
              (RemoveGroupMember (client e) gid user);
          mret (Returns (mg, (), Wrap err errDeleteFailed))
      end
  | _ => mret (Returns (mg, (), New errNotMember))
  end.

End Controller.

End Members.

(** ** apis/projects/v1alpha1: the DeployKey resource *)

Module DeployKeyTypes.

Record DeployKeyParameters : Type :=
  { ProjectID : option string;
    ProjectIDRef : option Xp.Reference;
    ProjectIDSelector : option Xp.Selector;
    Title : string;
    CanPush : option bool;
    ExpiresAt : option Xp.Time;
    KeySecretRef : Xp.SecretKeySelector }.

Record DeployKeyObservation : Type :=
  { ID : option Z; CreatedAt : option Xp.Time }.

Record DeployKeySpec : Type := { ForProvider : DeployKeyParameters }.

Record DeployKeyStatus : Type :=
  { Conditions : list Xp.Condition; AtProvider : DeployKeyObservation }.

Record DeployKey : Type :=
  { Meta : Xp.ObjectMeta; Spec : DeployKeySpec; Status : DeployKeyStatus }.

End DeployKeyTypes.

(** ** pkg/controller/projects/deploykeys: the deploy key controller

    The controller itself is not among the sources; controller_test.go, its
    test, is.  Each step below is the one a case of that test pins down, and
    what no case pins down is a parameter. *)

Module DeployKeys.
Import Go Xp Gitlab DeployKeyTypes.

(** Modelled from the spec: the message of the controller's constant
    [errIDNotAnInt], declared in the missing controller.go. *)
Definition errIDNotAnInt : string := "ID is not an integer value".

(** Modelled from the spec: the other message constants of the missing
    controller.go, whose texts no source gives, the functions of
    pkg/clients/projects it passes the spec through, and the rest of
    [Observe] once the deploy key was read ([observed]: late initialisation,
    status, and the flags of the observation). *)
Class ControllerPkg : Type :=
  { errNotDeployKey : string;
    errProjectIDMissing : string;
    errGetFail : string;
    errCreateFail : string;
    errUpdateFail : string;
    errDeleteFail : string;
    errKeyMissing : string;
    GenerateCreateDeployKeyOptions : string → DeployKeyParameters → AddDeployKeyOptions;
    GenerateUpdateDeployKeyOptions : DeployKeyParameters → UpdateDeployKeyOptions;
    observed : DeployKey → option ProjectDeployKey → outcome (DeployKey * ExternalObservation) }.

(** [projects.DeployKeyClient], with the methods the test's mock has. *)
Record DeployKeyClient : Type :=
  { GetDeployKey : string → Z → option ProjectDeployKey * option Response * option error;
    AddDeployKey :
      string → AddDeployKeyOptions → option ProjectDeployKey * option Response * option error;
    UpdateDeployKey :
      string → Z → UpdateDeployKeyOptions
      → option ProjectDeployKey * option Response * option error;
    DeleteDeployKey : string → Z → option Response * option error }.

(** The Kubernetes client: reading a secret gives its data or an error. *)
Record KubeClient : Type :=
  { KubeGet : string → string → gmap string string * option error }.

Inductive Call : Type :=
| CallKubeGet (namespace name : string)
| CallGetDeployKey (pid : string) (deployKey : Z)
| CallAddDeployKey (pid : string) (opt : AddDeployKeyOptions)
| CallUpdateDeployKey (pid : string) (deployKey : Z) (opt : UpdateDeployKeyOptions)
| CallDeleteDeployKey (pid : string) (deployKey : Z).

Record external : Type := { kube : KubeClient; client : DeployKeyClient }.

Section Controller.
Context `{ControllerPkg}.

Definition result (A : Type) : Type := outcome (Managed DeployKey * A * option error).

(** Modelled from the spec: [Observe] of the missing controller.go, by the
    cases of [TestObserve]: NotADeployKey, ProjectIDNotSet, NoExternalNameSet
    and ExternalNameNotAnInt (the plain error [errIDNotAnInt]),
    GetKeyClientError, GetErr404, and the two successes. *)
Definition Observe (e : external) (mg : Managed DeployKey)
  : Op Call (result ExternalObservation) :=
  match mg with
  | managed cr =>
      match ProjectID (ForProvider (Spec cr)) with
      | None => mret (Returns (mg, noObservation, New errProjectIDMissing))
      | Some pid =>
          match Atoi (GetExternalName (Meta cr)) with
          | inr _ => mret (Returns (mg, noObservation, New errIDNotAnInt))
          | inl id =>
              '(dk, res, err) ←
                perform (CallGetDeployKey pid id) (GetDeployKey (client e) pid id);
              match err with
              | Some _ =>
                  if Clients.IsResponseNotFound res
                  then mret (Returns (mg, noObservation, None))
                  else mret (Returns (mg, noObservation, Wrap err errGetFail))
              | None =>
                  match observed cr dk with
                  | Returns (cr', o) => mret (Returns (managed cr', o, None))
                  | Panics => mret Panics
                  end
              end
          end
      end
  | _ => mret (Returns (mg, noObservation, New errNotDeployKey))
  end.

(** Modelled from the spec: [Create] of the missing controller.go, by the
    cases of [TestCreate]: NotADeployKey, ProjectIDNotSet, NoKeySecretRef
    (the error of reading the secret, wrapped), FaileToAdd, SuccessfullyAdd
    (the external name is the decimal id of the new key). *)
Definition Create (e : external) (mg : Managed DeployKey)
  : Op Call (result ExternalCreation) :=
  match mg with
  | managed cr =>
      match ProjectID (ForProvider (Spec cr)) with
      | None => mret (Returns (mg, noCreation, New errProjectIDMissing))
      | Some pid =>
          let ref := KeySecretRef (ForProvider (Spec cr)) in
          '(data, err) ←
            perform (CallKubeGet (SecretNamespace ref) (SecretName ref))
              (KubeGet (kube e) (SecretNamespace ref) (SecretName ref));
          match err with
          | Some _ => mret (Returns (mg, noCreation, Wrap err errKeyMissing))
          | None =>
              let opt :=
                GenerateCreateDeployKeyOptions (default "" (data !! SecretKey ref))
                  (ForProvider (Spec cr)) in
              '(dk, _, err) ←
                perform (CallAddDeployKey pid opt) (AddDeployKey (client e) pid opt);
              match err with
              | Some _ => mret (Returns (mg, noCreation, Wrap err errCreateFail))
              | None =>
                  match dk with
                  | None => mret Panics
                  | Some k =>
                      let cr' :=
                        {| Meta := SetExternalName (Meta cr) (Itoa (dkID k));
                           Spec := Spec cr;
                           Status := Status cr |} in
                      mret (Returns (managed cr', noCreation, None))
                  end
              end
          end
      end
  | _ => mret (Returns (mg, noCreation, New errNotDeployKey))
  end.

(** Modelled from the spec: [Update] of the missing controller.go, by the
    cases of [TestUpdate]: NotADeployKey, ProjectIDNotSet, IdIsNotAnInt (the
    error of [strconv.Atoi], wrapped), FailUpdate, SuccessUpdate. *)
Definition Update (e : external) (mg : Managed DeployKey)
  : Op Call (result ExternalUpdate) :=
  match mg with
  | managed cr =>
      match ProjectID (ForProvider (Spec cr)) with
      | None => mret (Returns (mg, noUpdate, New errProjectIDMissing))
      | Some pid =>
          match Atoi (GetExternalName (Meta cr)) with
          | inr atoiErr => mret (Returns (mg, noUpdate, Wrap (Some atoiErr) errIDNotAnInt))
          | inl id =>
              let opt := GenerateUpdateDeployKeyOptions (ForProvider (Spec cr)) in
              '(_, _, err) ←
                perform (CallUpdateDeployKey pid id opt)
                  (UpdateDeployKey (client e) pid id opt);
              mret (Returns (mg, noUpdate, Wrap err errUpdateFail))
          end
      end
  | _ => mret (Returns (mg, noUpdate, New errNotDeployKey))
  end.

(** Modelled from the spec: [Delete] of the missing controller.go, by the
    cases of [TestDelete]: NotADeployKey (whose expected error is
    [errors.New(errDeleteFail)]), ProjectIDNotSet, ExternalNameNotAnInt (the
    error of [strconv.Atoi], wrapped), SuccessDelete. *)
Definition Delete (e : external) (mg : Managed DeployKey) : Op Call (result ()) :=
  match mg with
  | managed cr =>
      match ProjectID (ForProvider (Spec cr)) with
      | None => mret (Returns (mg, (), New errProjectIDMissing))
      | Some pid =>
          match Atoi (GetExternalName (Meta cr)) with
          | inr atoiErr => mret (Returns (mg, (), Wrap (Some atoiErr) errIDNotAnInt))
          | inl id =>
              '(_, err) ←
                perform (CallDeleteDeployKey pid id) (DeleteDeployKey (client e) pid id);
              mret (Returns (mg, (), Wrap err errDeleteFail))
          end
      end
  | _ => mret (Returns (mg, (), New errDeleteFail))
  end.

End Controller.

End DeployKeys.

(** ** pkg/controller/projects: the project controller

    The controller is not among the sources either; its test is (the cases
    of [TestObserve] and [TestCreate] for [*v1alpha1.Project]). *)

Module ProjectController.
Import Go Xp.

(** Modelled from the spec: what the missing project controller takes from
    packages that are not among the sources.  The spec and wire types of a
    project ([v1alpha1.ProjectParameters], [v1alpha1.ProjectObservation],
    [gitlab.Project]), the functions of pkg/clients/projects
    ([LateInitialize], which returns the updated spec, [GenerateObservation]),
    the drift check, [cmp.Equal] on two specs, the runners token of a remote
    project, and the controller's message constants. *)
Class ProjectsPkg : Type :=
  { ProjectParameters : Type;
    ProjectObservation : Type;
    GitlabProject : Type;
    LateInitialize : ProjectParameters → GitlabProject → ProjectParameters;
    GenerateObservation : GitlabProject → ProjectObservation;
    isProjectUpToDate : ProjectParameters → GitlabProject → bool;
    cmpEqual : ProjectParameters → ProjectParameters → bool;
    RunnersToken : GitlabProject → string;
    errNotProject : string;
    errGetFailed : string;
    errCreateFailed : string;
    errKubeUpdateFailed : string }.

Section Types.
Context `{ProjectsPkg}.

Record ProjectSpec : Type := { ForProvider : ProjectParameters }.

Record ProjectStatus : Type :=
  { Conditions : list Condition; AtProvider : option ProjectObservation }.

Record Project : Type :=
  { Meta : ObjectMeta; Spec : ProjectSpec; Status : ProjectStatus }.

(** [projects.Client], the two methods the test's mock has, and the
    Kubernetes client's [Update].  How the controller computes the project
    id and the options it sends is not pinned down: a method's answer is
    given for the resource the request is made for. *)
Record Client : Type :=
  { GetProject : Project → option GitlabProject * option Gitlab.Response * option error;
    CreateProject :
      Project → option GitlabProject * option Gitlab.Response * option error }.

Record KubeClient : Type := { KubeUpdate : Project → option error }.

Inductive Call : Type :=
| CallGetProject (cr : Project)
| CallCreateProject (cr : Project)
| CallKubeUpdate (cr : Project).

Record external : Type := { kube : KubeClient; client : Client }.

Definition result (A : Type) : Type := outcome (Managed Project * A * option error).

(** The spec of [cr] replaced, as the in-place [LateInitialize] leaves it. *)
Definition withForProvider (cr : Project) (p : ProjectParameters) : Project :=
  {| Meta := Meta cr; Spec := {| ForProvider := p |}; Status := Status cr |}.

(** Modelled from the spec: late initialisation from the remote project and
    its persistence, shared by [Observe] and [Create]: the spec is updated in
    memory first; when that changed it, the resource is written back through
    the Kubernetes client, and a failure of that write ends the operation.
    The result is the resource, whether the spec changed, and the error. *)
Definition lateInitialize (e : external) (cr : Project) (prj : GitlabProject)
  : Op Call (Project * bool * option error) :=
  let current := ForProvider (Spec cr) in
  let cr' := withForProvider cr (LateInitialize current prj) in
  if cmpEqual current (ForProvider (Spec cr'))
  then mret (cr', false, None)
  else
    err ← perform (CallKubeUpdate cr') (KubeUpdate (kube e) cr');
    mret (cr', true, Wrap err errKubeUpdateFailed).

(** Modelled from the spec: [Observe] of the missing project controller, by
    the cases of [TestObserve]: FailedGetRequest, LateInitFailedKubeUpdate,
    SuccessfulAvailable and LateInitSuccess; the guard on the resource's
    type is the one every controller of the repository starts with. *)
Definition Observe (e : external) (mg : Managed Project)
  : Op Call (result ExternalObservation) :=
  match mg with
  | managed cr =>
      '(prj, _, err) ← perform (CallGetProject cr) (GetProject (client e) cr);
      match err, prj with
      | Some _, _ => mret (Returns (mg, noObservation, Wrap err errGetFailed))
      | None, None => mret Panics
      | None, Some prj =>
          '(cr', changed, err) ← lateInitialize e cr prj;
          match err with
          | Some _ => mret (Returns (managed cr', noObservation, err))
          | None =>
              let cr'' :=
                {| Meta := Meta cr';
                   Spec := Spec cr';
                   Status :=
                     {| Conditions := SetConditions (Conditions (Status cr')) [Available];
                        AtProvider := Some (GenerateObservation prj) |} |} in
              mret (Returns
                (managed cr'',
                 {| ResourceExists := true;
                    ResourceUpToDate := isProjectUpToDate (ForProvider (Spec cr'')) prj;
                    ResourceLateInitialized := changed;
                    ObservedConnectionDetails := {[ "runnersToken" := RunnersToken prj ]} |},
                 None))
          end
      end
  | _ => mret (Returns (mg, noObservation, New errNotProject))
  end.

(** The rest of [Create] once late initialisation went through (the
    condition, the external name, the result): the cases of [TestCreate] do
    not determine it, so it is a parameter. *)
Variable created : Project → GitlabProject → Project * ExternalCreation * option error.

(** Modelled from the spec: [Create] of the missing project controller, by
    the cases of [TestCreate]: FailedCreation and LateInitFailedKubeUpdate. *)
Definition Create (e : external) (mg : Managed Project)
  : Op Call (result ExternalCreation) :=
  match mg with
  | managed cr =>
      '(prj, _, err) ← perform (CallCreateProject cr) (CreateProject (client e) cr);
      match err, prj with
      | Some _, _ => mret (Returns (mg, noCreation, Wrap err errCreateFailed))
      | None, None => mret Panics
      | None, Some prj =>
          '(cr', _, err) ← lateInitialize e cr prj;
          match err with
          | Some _ => mret (Returns (managed cr', noCreation, err))
          | None =>
              let '(cr'', c, err) := created cr' prj in
              mret (Returns (managed cr'', c, err))
          end
      end
  | _ => mret (Returns (mg, noCreation, New errNotProject))
  end.

End Types.

End ProjectController.

(** ** The claim of the specification about the drift check, in its words *)

Module SpecWords.
Import Gitlab VariableTypes.

(** "Every modifiable field of the spec parameters equals the corresponding
    field of the remote variable, with nil pointers equated to empty
    values": a nil pointer counts as the zero value of its type. *)
Definition fieldsEqual_nilAsEmpty (p : VariableParameters) (g : ProjectVariable) : Prop :=
  Key p = pvKey g
  ∧ Value p = pvValue g
  ∧ default "" (VariableType p) = pvVariableType g
  ∧ default false (Protected p) = pvProtected g
  ∧ default false (Masked p) = pvMasked g
  ∧ default "" (EnvironmentScope p) = pvEnvironmentScope g.

(** "Sets exactly those pointer fields that were nil before the call,
    copying the remote value, and leaves a field that was not nil
    unchanged", for one field. *)
Definition filled {A : Type} (before : option A) (remote : A) (after : option A) : Prop :=
  match before with
  | None => after = Some remote
  | Some _ => after = before
  end.

End SpecWords.

(** ** Values of the repository's tests, and instances of the parameters *)

Module Fixtures.
Import Go Xp Gitlab.

(** A [clients.LateInitializeStringPtr] for the examples: the pointer when
    it is not nil, else a pointer to the remote string unless that is
    empty. *)
Definition lateInitializeStringPtr (p : option string) (from : string) : option string :=
  match p with
  | Some _ => p
  | None => if String.eqb from "" then None else Some from
  end.

(** pkg/clients/groups by the cases of member_test.go. *)
Definition groupsPkg : Members.GroupsPkg :=
  {| Members.GenerateMemberObservation := λ g,
       match g with
       | None =>
           {| GroupMemberTypes.Username := ""; GroupMemberTypes.Name := "";
              GroupMemberTypes.State := ""; GroupMemberTypes.AvatarURL := "";
              GroupMemberTypes.WebURL := ""; GroupMemberTypes.GroupSAMLIdentity := None |}
       | Some g =>
           {| GroupMemberTypes.Username := gmUsername g;
              GroupMemberTypes.Name := gmName g;
              GroupMemberTypes.State := gmState g;
              GroupMemberTypes.AvatarURL := gmAvatarURL g;
              GroupMemberTypes.WebURL := gmWebURL g;
              GroupMemberTypes.GroupSAMLIdentity :=
                (λ i, {| GroupMemberTypes.ExternUID := ExternUID i;
                         GroupMemberTypes.Provider := Provider i;
                         GroupMemberTypes.SAMLProviderID := SAMLProviderID i |})
                <$> gmGroupSAMLIdentity g |}
       end;
     Members.GenerateAddMemberOptions := λ p,
       {| addUserID := Some (GroupMemberTypes.UserID p);
          addAccessLevel := Some (GroupMemberTypes.AccessLevel p);
          addExpiresAt := GroupMemberTypes.ExpiresAt p |};
     Members.GenerateEditMemberOptions := λ p,
       {| editAccessLevel := Some (GroupMemberTypes.AccessLevel p);
          editExpiresAt := GroupMemberTypes.ExpiresAt p |} |}.

(** A group member resource: group 7, user 42, access level 30. *)
Definition member (groupID : option Z) : GroupMemberTypes.Member :=
  {| GroupMemberTypes.Meta := {| Name := "member"; Annotations := ∅ |};
     GroupMemberTypes.Spec :=
       {| GroupMemberTypes.ForProvider :=
            {| GroupMemberTypes.GroupID := groupID;
               GroupMemberTypes.GroupIDRef := None;
               GroupMemberTypes.GroupIDSelector := None;
               GroupMemberTypes.UserID := 42;
               GroupMemberTypes.AccessLevel := 30;
               GroupMemberTypes.ExpiresAt := None |} |};
     GroupMemberTypes.Status :=
       {| GroupMemberTypes.Conditions := [];
          GroupMemberTypes.AtProvider :=
            @Members.GenerateMemberObservation groupsPkg None |} |}.

(** A member client whose GET fails with the given HTTP status. *)
Definition failingMemberClient (status : Z) (err : error) : Members.MemberClient :=
  {| Members.GetGroupMember := λ _ _, (None, Some {| StatusCode := status |}, Some err);
     Members.AddGroupMember := λ _ _, (None, None, Some err);
     Members.EditGroupMember := λ _ _ _, (None, None, Some err);
     Members.RemoveGroupMember := λ _ _, (None, Some err) |}.

(** controller_test.go of the deploy keys: [testKeyID], [testProjectID],
    [testExternalName], [testDeployKey], [buildDeployKey]. *)
Definition testKeyID : Z := 123.
Definition testProjectID : string := "testProjectId".
Definition testExternalName : string := "123".
Definition testKeyTitle : string := "testKeyTitle".
Definition testCreatedAt : Time := 1620000000.

Definition testDeployKey : ProjectDeployKey :=
  {| dkID := testKeyID; dkTitle := testKeyTitle; dkKey := "testKey";
     dkCreatedAt := Some testCreatedAt; dkCanPush := true |}.

Definition buildDeployKey (externalName : option string) (title : string)
    (canPush : option bool) : DeployKeyTypes.DeployKey :=
  {| DeployKeyTypes.Meta :=
       {| Name := "";
          Annotations :=
            match externalName with
            | Some n => {[ AnnotationKeyExternalName := n ]}
            | None => ∅
            end |};
     DeployKeyTypes.Spec :=
       {| DeployKeyTypes.ForProvider :=
            {| DeployKeyTypes.ProjectID := Some testProjectID;
               DeployKeyTypes.ProjectIDRef := None;
               DeployKeyTypes.ProjectIDSelector := None;
               DeployKeyTypes.Title := title;
               DeployKeyTypes.CanPush := canPush;
               DeployKeyTypes.ExpiresAt := None;
               DeployKeyTypes.KeySecretRef :=
                 {| SecretName := ""; SecretNamespace := ""; SecretKey := "" |} |} |};
     DeployKeyTypes.Status :=
       {| DeployKeyTypes.Conditions := [];
          DeployKeyTypes.AtProvider :=
            {| DeployKeyTypes.ID := None; DeployKeyTypes.CreatedAt := None |} |} |}.

(** The parameters of the deploy key controller for the examples: a text of
    its own for each message constant, and the rest of [Observe] as the two
    successful cases of [TestObserve] show it. *)
Definition deployKeyPkg : DeployKeys.ControllerPkg :=
  {| DeployKeys.errNotDeployKey := "managed resource is not a Gitlab deploy key custom resource";
     DeployKeys.errProjectIDMissing := "missing project ID";
     DeployKeys.errGetFail := "cannot get Gitlab deploy key";
     DeployKeys.errCreateFail := "cannot create Gitlab deploy key";
     DeployKeys.errUpdateFail := "cannot update Gitlab deploy key";
     DeployKeys.errDeleteFail := "cannot delete Gitlab deploy key";
     DeployKeys.errKeyMissing := "missing key ref value";
     DeployKeys.GenerateCreateDeployKeyOptions := λ key p,
       {| addTitle := Some (DeployKeyTypes.Title p); addKey := Some key;
          addCanPush := DeployKeyTypes.CanPush p |};
     DeployKeys.GenerateUpdateDeployKeyOptions := λ p,
       {| updTitle := Some (DeployKeyTypes.Title p);
          updCanPush := DeployKeyTypes.CanPush p |};
     DeployKeys.observed := λ cr dk,
       match dk with
       | None => Panics
       | Some k =>
           let p := DeployKeyTypes.ForProvider (DeployKeyTypes.Spec cr) in
           let canPush := HookClient.lateInit (DeployKeyTypes.CanPush p) (dkCanPush k) in
           Returns
             ({| DeployKeyTypes.Meta := DeployKeyTypes.Meta cr;
                 DeployKeyTypes.Spec :=
                   {| DeployKeyTypes.ForProvider :=
                        {| DeployKeyTypes.ProjectID := DeployKeyTypes.ProjectID p;
                           DeployKeyTypes.ProjectIDRef := DeployKeyTypes.ProjectIDRef p;
                           DeployKeyTypes.ProjectIDSelector := DeployKeyTypes.ProjectIDSelector p;
                           DeployKeyTypes.Title := DeployKeyTypes.Title p;
                           DeployKeyTypes.CanPush := canPush;
                           DeployKeyTypes.ExpiresAt := DeployKeyTypes.ExpiresAt p;
                           DeployKeyTypes.KeySecretRef := DeployKeyTypes.KeySecretRef p |} |};
                 DeployKeyTypes.Status :=
                   {| DeployKeyTypes.Conditions :=
                        SetConditions
                          (DeployKeyTypes.Conditions (DeployKeyTypes.Status cr)) [Available];
                      DeployKeyTypes.AtProvider :=
                        {| DeployKeyTypes.ID := Some (dkID k);
                           DeployKeyTypes.CreatedAt := dkCreatedAt k |} |} |},
              {| ResourceExists := true;
                 ResourceUpToDate :=
                   String.eqb (DeployKeyTypes.Title p) (dkTitle k)
                   && ptrEqual Bool.eqb canPush (Some (dkCanPush k));
                 ResourceLateInitialized :=
                   negb (ptrEqual Bool.eqb (DeployKeyTypes.CanPush p) canPush);
                 ObservedConnectionDetails := ∅ |})
       end |}.

(** The clients of the test cases: a GET that answers with a status and an
    error, and the Kubernetes client that finds an empty secret. *)
Definition deployKeyClient
    (get : option ProjectDeployKey * option Response * option error)
    (err : option error) : DeployKeys.DeployKeyClient :=
  {| DeployKeys.GetDeployKey := λ _ _, get;
     DeployKeys.AddDeployKey := λ _ _, (Some {| dkID := testKeyID; dkTitle := "";
        dkKey := ""; dkCreatedAt := None; dkCanPush := false |}, None, err);
     DeployKeys.UpdateDeployKey := λ _ _ _, (None, None, err);
     DeployKeys.DeleteDeployKey := λ _ _, (None, err) |}.

Definition deployKeyExternal
    (get : option ProjectDeployKey * option Response * option error)
    (err : option error) : DeployKeys.external :=
  {| DeployKeys.kube := {| DeployKeys.KubeGet := λ _ _, (∅, None) |};
     DeployKeys.client := deployKeyClient get err |}.

(** The project of part of the project controller's test: the spec holds
    the path, the remote project its name, path and runners token. *)
Record projectParameters : Type := { Path : option string }.
Record gitlabProject : Type :=
  { prjName : string; prjPath : string; prjRunnersToken : string }.

Definition projectsPkg : ProjectController.ProjectsPkg :=
  {| ProjectController.ProjectParameters := projectParameters;
     ProjectController.ProjectObservation := string;
     ProjectController.GitlabProject := gitlabProject;
     ProjectController.LateInitialize := λ p prj,
       {| Path := lateInitializeStringPtr (Path p) (prjPath prj) |};
     ProjectController.GenerateObservation := prjName;
     ProjectController.isProjectUpToDate := λ _ _, true;
     ProjectController.cmpEqual := λ x y, ptrEqual String.eqb (Path x) (Path y);
     ProjectController.RunnersToken := prjRunnersToken;
     ProjectController.errNotProject := "managed resource is not a Gitlab project custom resource";
     ProjectController.errGetFailed := "cannot get Gitlab project";
     ProjectController.errCreateFailed := "cannot create Gitlab project";
     ProjectController.errKubeUpdateFailed := "cannot update Gitlab project custom resource" |}.

(** [errBoom], [path], [project()] and the clients of the two
    LateInitFailedKubeUpdate cases. *)
Definition errBoom : error := fundamental "boom".
Definition path : string := "some/path/to/repo".

Definition project : @ProjectController.Project projectsPkg :=
  {| ProjectController.Meta := {| Name := ""; Annotations := ∅ |};
     ProjectController.Spec :=
       @ProjectController.Build_ProjectSpec projectsPkg {| Path := None |};
     ProjectController.Status :=
       @ProjectController.Build_ProjectStatus projectsPkg [] None |}.

Definition projectExternal (kubeErr : option error) : @ProjectController.external projectsPkg :=
  let answer
    : option (@ProjectController.GitlabProject projectsPkg) * option Response * option error :=
    (Some {| prjName := ""; prjPath := path; prjRunnersToken := "" |},
     Some {| StatusCode := 200 |}, None) in
  {| ProjectController.kube := {| ProjectController.KubeUpdate := λ _, kubeErr |};
     ProjectController.client :=
       {| ProjectController.GetProject := λ _, answer;
          ProjectController.CreateProject := λ _, answer |} |}.

End Fixtures.

(** ** pkg/clients/projects: the rest of the hook client *)

Module HookOptions.
Import Go Gitlab HookTypes.

(** [gitlab.AddProjectHookOptions] and [gitlab.EditProjectHookOptions], the
    fields the generators set. *)
Record AddProjectHookOptions : Type :=
  { aURL : option string;
    aConfidentialNoteEvents : option bool;
    aPushEvents : option bool;
    aPushEventsBranchFilter : option string;
    aIssuesEvents : option bool;
    aConfidentialIssuesEvents : option bool;
    aMergeRequestsEvents : option bool;
    aTagPushEvents : option bool;
    aNoteEvents : option bool;
    aJobEvents : option bool;
    aPipelineEvents : option bool;
    aWikiPageEvents : option bool;
    aEnableSSLVerification : option bool;
    aToken : option string }.

Record EditProjectHookOptions : Type :=
  { eURL : option string;
    eConfidentialNoteEvents : option bool;
    ePushEvents : option bool;
    ePushEventsBranchFilter : option string;
    eIssuesEvents : option bool;
    eConfidentialIssuesEvents : option bool;
    eMergeRequestsEvents : option bool;
    eTagPushEvents : option bool;
    eNoteEvents : option bool;
    eJobEvents : option bool;
    ePipelineEvents : option bool;
    eWikiPageEvents : option bool;
    eEnableSSLVerification : option bool;
    eToken : option string }.

(** Modelled from the spec: the declaration of [v1alpha1.HookObservation] is
    not among the sources; these are the two fields
    [GenerateHookObservation] writes. *)
Record HookObservation : Type :=
  { ID : Z; CreatedAt : option Xp.Time }.

(** [GenerateHookObservation(hook)]. *)
Definition GenerateHookObservation (hook : option ProjectHook) : HookObservation :=
  match hook with
  | None => {| ID := 0; CreatedAt := None |}
  | Some h =>
      let o := {| ID := phID h; CreatedAt := None |} in
      match phCreatedAt h with
      | Some created => {| ID := ID o; CreatedAt := Some created |}
      | None => o
      end
  end.

(** [GenerateCreateHookOptions(p)], [p] taken as not nil. *)
Definition GenerateCreateHookOptions (p : HookParameters) : AddProjectHookOptions :=
  {| aURL := URL p;
     aConfidentialNoteEvents := ConfidentialNoteEvents p;
     aPushEvents := PushEvents p;
     aPushEventsBranchFilter := PushEventsBranchFilter p;
     aIssuesEvents := IssuesEvents p;
     aConfidentialIssuesEvents := ConfidentialIssuesEvents p;
     aMergeRequestsEvents := MergeRequestsEvents p;
     aTagPushEvents := TagPushEvents p;
     aNoteEvents := NoteEvents p;
     aJobEvents := JobEvents p;
     aPipelineEvents := PipelineEvents p;
     aWikiPageEvents := WikiPageEvents p;
     aEnableSSLVerification := EnableSSLVerification p;
     aToken := Token p |}.

(** [GenerateEditHookOptions(p)], [p] taken as not nil. *)
Definition GenerateEditHookOptions (p : HookParameters) : EditProjectHookOptions :=
  {| eURL := URL p;
     eConfidentialNoteEvents := ConfidentialNoteEvents p;
     ePushEvents := PushEvents p;
     ePushEventsBranchFilter := PushEventsBranchFilter p;
     eIssuesEvents := IssuesEvents p;
     eConfidentialIssuesEvents := ConfidentialIssuesEvents p;
     eMergeRequestsEvents := MergeRequestsEvents p;
     eTagPushEvents := TagPushEvents p;
     eNoteEvents := NoteEvents p;
     eJobEvents := JobEvents p;
     ePipelineEvents := PipelineEvents p;
     eWikiPageEvents := WikiPageEvents p;
     eEnableSSLVerification := EnableSSLVerification p;
     eToken := Token p |}.

Section WithClients.

(** [clients.StringToPtr] and [clients.IsBoolEqualToBoolPtr] are declared in
    pkg/clients, which is not among the sources: they are parameters. *)
Variable StringToPtr : string → option string.
Variable IsBoolEqualToBoolPtr : option bool → bool → bool.

(** [IsHookUpToDate(p, g)], both pointers taken as not nil: thirteen checks
    in the order of the source, the first that fails answers false.
    [cmp.Equal] on two string pointers is [ptrEqual]. *)
Definition IsHookUpToDate (p : HookParameters) (g : ProjectHook) : bool :=
  if negb (ptrEqual String.eqb (URL p) (StringToPtr (phURL g))) then false
  else if negb (IsBoolEqualToBoolPtr (ConfidentialNoteEvents p) (phConfidentialNoteEvents g))
  then false
  else if negb (IsBoolEqualToBoolPtr (PushEvents p) (phPushEvents g)) then false
  else if negb (ptrEqual String.eqb (PushEventsBranchFilter p)
                  (StringToPtr (phPushEventsBranchFilter g))) then false
  else if negb (IsBoolEqualToBoolPtr (IssuesEvents p) (phIssuesEvents g)) then false
  else if negb (IsBoolEqualToBoolPtr (ConfidentialIssuesEvents p)
                  (phConfidentialIssuesEvents g)) then false
  else if negb (IsBoolEqualToBoolPtr (MergeRequestsEvents p) (phMergeRequestsEvents g))
  then false
  else if negb (IsBoolEqualToBoolPtr (TagPushEvents p) (phTagPushEvents g)) then false
  else if negb (IsBoolEqualToBoolPtr (NoteEvents p) (phNoteEvents g)) then false
  else if negb (IsBoolEqualToBoolPtr (JobEvents p) (phJobEvents g)) then false
  else if negb (IsBoolEqualToBoolPtr (PipelineEvents p) (phPipelineEvents g)) then false
  else if negb (IsBoolEqualToBoolPtr (WikiPageEvents p) (phWikiPageEvents g)) then false
  else if negb (IsBoolEqualToBoolPtr (EnableSSLVerification p) (phEnableSSLVerification g))
  then false
  else true.

End WithClients.

End HookOptions.

(** ** pkg/controller/groups/members: the connector *)

Module MembersConnect.
Import Go Xp GroupMemberTypes Members.

Section WithClients.

(** [clients.Config] and [clients.GetConfig] are declared in pkg/clients,
    which is not among the sources: the type of a configuration and the
    answer of [GetConfig] for a member (a pointer and an error) are
    parameters. *)
Variable Config : Type.
Variable GetConfig : Member → option Config * option error.

(** [connector]; its [kube] field is only handed to [GetConfig]. *)
Record connector : Type := { newGitlabClientFn : Config → MemberClient }.

(** [Connect(ctx, mg)]: the external client or an error.  [*cfg] panics on
    a nil configuration that comes without an error. *)
Definition Connect (c : connector) (mg : Managed Member)
  : outcome (option external * option error) :=
  match mg with
  | managed cr =>
      match GetConfig cr with
      | (_, Some err) => Returns (None, Some err)
      | (Some cfg, None) => Returns (Some {| client := newGitlabClientFn c cfg |}, None)
      | (None, None) => Panics
      end
  | _ => Returns (None, New errNotMember)
  end.

End WithClients.

End MembersConnect.

(** ** Instances of the parameters for the examples of the hook client and
    of the member controller *)

Module MoreFixtures.
Import Go Xp Gitlab.

(** A [clients.StringToPtr]: nil for the empty string, else a pointer to the
    string. *)
Definition stringToPtr (s : string) : option string :=
  if String.eqb s "" then None else Some s.

(** A [clients.IsBoolEqualToBoolPtr]: a nil pointer equals anything, a
    pointer equals the value it points to. *)
Definition isBoolEqualToBoolPtr (bp : option bool) (b : bool) : bool :=
  match bp with
  | Some v => Bool.eqb v b
  | None => true
  end.

(** The hook of the cases of the hook client's tests, with flags all [flag]. *)
Definition hook (url filter : string) (flag : bool) : ProjectHook :=
  {| phID := 5; phURL := url; phConfidentialNoteEvents := flag;
     phPushEvents := flag; phPushEventsBranchFilter := filter;
     phIssuesEvents := flag; phConfidentialIssuesEvents := flag;
     phMergeRequestsEvents := flag; phTagPushEvents := flag; phNoteEvents := flag;
     phJobEvents := flag; phPipelineEvents := flag; phWikiPageEvents := flag;
     phEnableSSLVerification := flag; phCreatedAt := Some 1620000000 |}.

(** A hook spec that sets the URL, the token and one flag. *)
Definition hookSpec (url : option string) (pushEvents : option bool) : HookTypes.HookParameters :=
  {| HookTypes.URL := url; HookTypes.ConfidentialNoteEvents := None;
     HookTypes.PushEvents := pushEvents; HookTypes.PushEventsBranchFilter := None;
     HookTypes.IssuesEvents := None; HookTypes.ConfidentialIssuesEvents := None;
     HookTypes.MergeRequestsEvents := None; HookTypes.TagPushEvents := None;
     HookTypes.NoteEvents := None; HookTypes.JobEvents := None;
     HookTypes.PipelineEvents := None; HookTypes.WikiPageEvents := None;
     HookTypes.EnableSSLVerification := None;
     HookTypes.Token := Some "84B9C651-9025-47D2-9124-DD951BD268E8" |}.

(** A member client that answers every call with the same error, nil or
    not, and a GET with the given member. *)
Definition memberClient (found : option GroupMember) (err : option error)
  : Members.MemberClient :=
  {| Members.GetGroupMember := λ _ _, (found, Some {| StatusCode := 200 |}, err);
     Members.AddGroupMember := λ _ _, (found, Some {| StatusCode := 201 |}, err);
     Members.EditGroupMember := λ _ _ _, (found, Some {| StatusCode := 200 |}, err);
     Members.RemoveGroupMember := λ _ _, (Some {| StatusCode := 204 |}, err) |}.

End MoreFixtures.

(* ===================================================================== *)
(** * Part II: theorems *)
(* ===================================================================== *)

Module GoFacts.
Import Go.

Lemma HasPrefix_app (s prefix : string) :
  HasPrefix s prefix = true ↔ ∃ rest, s = prefix +:+ rest.
Proof.
  revert s. induction prefix as [|c prefix IH]; intros s; simpl.
  - split; [intros _; by exists s | done].
  - destruct s as [|d s]; simpl.
    + split; [done | intros [rest Hrest]; discriminate].
    + rewrite andb_true_iff, IH, Ascii.eqb_eq. split.
      * intros [-> [rest ->]]. by exists rest.
      * intros [rest Hrest]. injection Hrest as -> ->. eauto.
Qed.

Lemma Contains_app (s substr : string) :
  Contains s substr = true ↔ ∃ before after, s = before +:+ substr +:+ after.
Proof.
  induction s as [|d s IH]; simpl.
  - rewrite orb_false_r, HasPrefix_app. split.
    + intros [rest Hrest]. by exists EmptyString, rest.
    + intros [[|b before] [after H]]; simpl in H; [eauto | discriminate].
  - rewrite orb_true_iff, IH, HasPrefix_app. split.
    + intros [[rest Hrest] | (before & after & ->)].
      * by exists EmptyString, rest.
      * by exists (String d before), after.
    + intros [[|b before] [after H]]; simpl in H.
      * left. eauto.
      * right. injection H as -> ->. eauto.
Qed.

Lemma digits_reject (c : ascii) (s : string) (acc : Z) :
  In c (String.list_ascii_of_string s) → digit c = None → digits acc s = None.
Proof.
  revert acc. induction s as [|a s IH]; simpl; intros acc Hin Hc; [done|].
  destruct Hin as [->|Hin]; [by rewrite Hc|].
  destruct (digit a); [by apply IH | done].
Qed.

Lemma magnitude_reject (c : ascii) (s : string) :
  In c (String.list_ascii_of_string s) → digit c = None → magnitude s = None.
Proof.
  destruct s as [|a s]; [done|]. apply digits_reject.
Qed.

(** [strconv.Atoi] rejects the empty string, and every string with a
    character in it that is neither a decimal digit nor a sign, with a
    syntax error. *)
Lemma Atoi_rejects (s : string) :
  s = "" ∨ (∃ c, In c (String.list_ascii_of_string s) ∧ digit c = None
                 ∧ c ≠ "+"%char ∧ c ≠ "-"%char) →
  Atoi s = inr (NumError "Atoi" s ErrSyntax).
Proof.
  intros Hs. assert (parseDecimal s = None) as Hparse; [|unfold Atoi; by rewrite Hparse].
  destruct Hs as [->|(c & Hin & Hc & Hplus & Hminus)]; [done|].
  destruct s as [|a s]; [done|]. unfold parseDecimal.
  destruct (Ascii.eqb_spec a "+") as [->|Ha].
  - destruct Hin as [Heq|Hin]; [congruence|]. by apply (magnitude_reject c).
  - destruct (Ascii.eqb_spec a "-") as [->|Hb].
    + destruct Hin as [Heq|Hin]; [congruence|].
      by rewrite (magnitude_reject c).
    + by apply (magnitude_reject c).
Qed.

End GoFacts.

(** ** Project variables: drift, conversion, options *)

Module VariableFacts.
Import Go Gitlab VariableTypes VariableClient.

Lemma ptrEqual_eq {A : Type} (eq : A → A → bool) (x y : option A) :
  (∀ a b, eq a b = true ↔ a = b) → ptrEqual eq x y = true ↔ x = y.
Proof.
  intros Heq. destruct x as [a|], y as [b|]; simpl; try (split; congruence).
  rewrite Heq. split; congruence.
Qed.

Lemma bool_eqb_eq (a b : bool) : Bool.eqb a b = true ↔ a = b.
Proof. by destruct a, b. Qed.

(** [cmpEqual] decides equality of the six compared fields. *)
Lemma cmpEqual_spec (x y : VariableParameters) :
  cmpEqual x y = true ↔
    Key x = Key y ∧ Value x = Value y ∧ Masked x = Masked y
    ∧ Protected x = Protected y ∧ VariableType x = VariableType y
    ∧ EnvironmentScope x = EnvironmentScope y.
Proof.
  unfold cmpEqual. rewrite !andb_true_iff, !String.eqb_eq.
  rewrite !(ptrEqual_eq Bool.eqb) by apply bool_eqb_eq.
  rewrite !(ptrEqual_eq String.eqb) by apply String.eqb_eq.
  tauto.
Qed.

(** C7. Round trip between conversion and drift check: for every remote
    project variable [g], the parameters [VariableToParameters g] are
    reported up to date against [g]. *)
Theorem VariableToParameters_up_to_date (g : ProjectVariable) :
  IsVariableUpToDate (Some (VariableToParameters g)) (Some g) = Returns true.
Proof.
  simpl. f_equal. by apply cmpEqual_spec.
Qed.

(** C2, as the code has it. [IsVariableUpToDate p g] returns true exactly
    when [p] is nil, or [Key] and [Value] equal those of the remote variable
    and each of the four pointers [VariableType], [Protected], [Masked] and
    [EnvironmentScope] is not nil and points to the value of the remote
    field.  [ProjectID], [ProjectIDRef] and [ProjectIDSelector] are not
    looked at: replacing them leaves the answer as it is. *)
Theorem IsVariableUpToDate_iff (p : option VariableParameters) (g : ProjectVariable) :
  (IsVariableUpToDate p (Some g) = Returns true ↔
     p = None
     ∨ ∃ p', p = Some p'
         ∧ Key p' = pvKey g
         ∧ Value p' = pvValue g
         ∧ VariableType p' = Some (pvVariableType g)
         ∧ Protected p' = Some (pvProtected g)
         ∧ Masked p' = Some (pvMasked g)
         ∧ EnvironmentScope p' = Some (pvEnvironmentScope g))
  ∧ (∀ p' pid ref sel,
       IsVariableUpToDate
         (Some {| ProjectID := pid; ProjectIDRef := ref; ProjectIDSelector := sel;
                  Key := Key p'; Value := Value p'; Masked := Masked p';
                  Protected := Protected p'; VariableType := VariableType p';
                  EnvironmentScope := EnvironmentScope p' |}) (Some g)
       = IsVariableUpToDate (Some p') (Some g)).
Proof.
  split; [|done].
  destruct p as [p'|]; simpl.
  - split.
    + intros Heq. right. exists p'. split; [done|].
      assert (cmpEqual p' (VariableToParameters g) = true) as Hc by congruence.
      apply cmpEqual_spec in Hc. simpl in Hc. tauto.
    + intros [Hnil | (q & Hq & HK & HV & HT & HP & HM & HE)]; [done|].
      injection Hq as <-. f_equal. apply cmpEqual_spec. simpl. tauto.
  - split; [by left | done].
Qed.

(** C2, counterexample to the claim as stated.  A spec that leaves the four
    optional pointers nil, against a remote variable whose fields hold the
    empty values: every field is equal once nil counts as empty, and the
    drift check still answers false. *)
Lemma IsVariableUpToDate_nil_is_not_empty :
  let p := {| ProjectID := None; ProjectIDRef := None; ProjectIDSelector := None;
              Key := "KEY"; Value := "value"; Masked := None; Protected := None;
              VariableType := None; EnvironmentScope := None |} in
  let g := {| pvKey := "KEY"; pvValue := "value"; pvVariableType := "";
              pvProtected := false; pvMasked := false; pvEnvironmentScope := "" |} in
  SpecWords.fieldsEqual_nilAsEmpty p g
  ∧ IsVariableUpToDate (Some p) (Some g) = Returns false.
Proof. by repeat split. Qed.

(** The nil pointer is read only past the nil check of [p]. *)
Example IsVariableUpToDate_nil_remote (p : VariableParameters) :
  IsVariableUpToDate None None = Returns true
  ∧ IsVariableUpToDate (Some p) None = Panics.
Proof. done. Qed.

(** C6. The option generators translate field by field.  The create
    options carry [Key], [Value] (as pointers that are never nil),
    [VariableType], [Protected], [Masked] and [EnvironmentScope] of the spec,
    a nil pointer staying nil; the update options carry the same without
    [Key].  Nothing else of the spec is carried: two specs give the same
    options exactly when they agree on those fields. *)
Theorem GenerateVariableOptions_fields (p : VariableParameters) :
  (GenerateCreateVariableOptions p =
     {| cKey := Some (Key p); cValue := Some (Value p);
        cVariableType := VariableType p; cProtected := Protected p;
        cMasked := Masked p; cEnvironmentScope := EnvironmentScope p |}
   ∧ GenerateUpdateVariableOptions p =
     {| uValue := Some (Value p); uVariableType := VariableType p;
        uProtected := Protected p; uMasked := Masked p;
        uEnvironmentScope := EnvironmentScope p |})
  ∧ (∀ q, GenerateCreateVariableOptions p = GenerateCreateVariableOptions q ↔
       Key p = Key q ∧ Value p = Value q ∧ VariableType p = VariableType q
       ∧ Protected p = Protected q ∧ Masked p = Masked q
       ∧ EnvironmentScope p = EnvironmentScope q)
  ∧ (∀ q, GenerateUpdateVariableOptions p = GenerateUpdateVariableOptions q ↔
       Value p = Value q ∧ VariableType p = VariableType q
       ∧ Protected p = Protected q ∧ Masked p = Masked q
       ∧ EnvironmentScope p = EnvironmentScope q).
Proof.
  split; [done|]. split; intros q; unfold GenerateCreateVariableOptions,
    GenerateUpdateVariableOptions.
  - split.
    + intros Heq. injection Heq as HK HV HT HP HM HE. done.
    + intros (-> & -> & -> & -> & -> & ->). done.
  - split.
    + intros Heq. injection Heq as HV HT HP HM HE. done.
    + intros (-> & -> & -> & -> & ->). done.
Qed.

(** The options of a spec with every optional pointer nil. *)
Example GenerateCreateVariableOptions_nil :
  GenerateCreateVariableOptions
    {| ProjectID := Some 7; ProjectIDRef := None; ProjectIDSelector := None;
       Key := "KEY"; Value := "value"; Masked := None; Protected := None;
       VariableType := None; EnvironmentScope := None |}
  = {| cKey := Some "KEY"; cValue := Some "value"; cVariableType := None;
       cProtected := None; cMasked := None; cEnvironmentScope := None |}.
Proof. reflexivity. Qed.

End VariableFacts.

(** ** Late initialisation and the not-found tests *)

Module LateInitFacts.
Import Go Gitlab.
Import SpecWords.

Lemma filled_lateInit {A : Type} (field : option A) (remote : A) :
  filled field remote (HookClient.lateInit field remote).
Proof. by destruct field. Qed.

(** C3, as the code has it.  With a remote object that is not nil,
    [LateInitializeVariable] fills [VariableType], [Protected], [Masked] and
    [EnvironmentScope] (the remote value where the pointer was nil, the
    pointer as it was otherwise) and leaves [ProjectID], [ProjectIDRef],
    [ProjectIDSelector], [Key] and [Value] as they were, nil or not;
    [LateInitializeHook] fills the eleven event and SSL flags in the same
    way, sets [PushEventsBranchFilter] to what
    [clients.LateInitializeStringPtr] returns for the old pointer and the
    remote filter (so it stays as it was when that helper returns a pointer
    that is not nil unchanged), and leaves [URL] and [Token] as they were,
    nil or not.  With a nil remote object the spec is returned as it was. *)
Theorem LateInitialize_fills_unset_only
    (LateInitializeStringPtr : option string → string → option string)
    (p : VariableTypes.VariableParameters) (v : ProjectVariable)
    (q : HookTypes.HookParameters) (h : ProjectHook) :
  let p' := VariableClient.LateInitializeVariable p (Some v) in
  let q' := HookClient.LateInitializeHook LateInitializeStringPtr q (Some h) in
  (filled (VariableTypes.VariableType p) (pvVariableType v) (VariableTypes.VariableType p')
   ∧ filled (VariableTypes.Protected p) (pvProtected v) (VariableTypes.Protected p')
   ∧ filled (VariableTypes.Masked p) (pvMasked v) (VariableTypes.Masked p')
   ∧ filled (VariableTypes.EnvironmentScope p) (pvEnvironmentScope v)
       (VariableTypes.EnvironmentScope p')
   ∧ VariableTypes.ProjectID p' = VariableTypes.ProjectID p
   ∧ VariableTypes.ProjectIDRef p' = VariableTypes.ProjectIDRef p
   ∧ VariableTypes.ProjectIDSelector p' = VariableTypes.ProjectIDSelector p
   ∧ VariableTypes.Key p' = VariableTypes.Key p
   ∧ VariableTypes.Value p' = VariableTypes.Value p)
  ∧ (filled (HookTypes.ConfidentialNoteEvents q) (phConfidentialNoteEvents h)
       (HookTypes.ConfidentialNoteEvents q')
     ∧ filled (HookTypes.PushEvents q) (phPushEvents h) (HookTypes.PushEvents q')
     ∧ filled (HookTypes.IssuesEvents q) (phIssuesEvents h) (HookTypes.IssuesEvents q')
     ∧ filled (HookTypes.ConfidentialIssuesEvents q) (phConfidentialIssuesEvents h)
         (HookTypes.ConfidentialIssuesEvents q')
     ∧ filled (HookTypes.MergeRequestsEvents q) (phMergeRequestsEvents h)
         (HookTypes.MergeRequestsEvents q')
     ∧ filled (HookTypes.TagPushEvents q) (phTagPushEvents h) (HookTypes.TagPushEvents q')
     ∧ filled (HookTypes.NoteEvents q) (phNoteEvents h) (HookTypes.NoteEvents q')
     ∧ filled (HookTypes.JobEvents q) (phJobEvents h) (HookTypes.JobEvents q')
     ∧ filled (HookTypes.PipelineEvents q) (phPipelineEvents h) (HookTypes.PipelineEvents q')
     ∧ filled (HookTypes.WikiPageEvents q) (phWikiPageEvents h) (HookTypes.WikiPageEvents q')
     ∧ filled (HookTypes.EnableSSLVerification q) (phEnableSSLVerification h)
         (HookTypes.EnableSSLVerification q')
     ∧ HookTypes.PushEventsBranchFilter q'
       = LateInitializeStringPtr (HookTypes.PushEventsBranchFilter q)
           (phPushEventsBranchFilter h)
     ∧ ((∀ s from, LateInitializeStringPtr (Some s) from = Some s) →
        ∀ s, HookTypes.PushEventsBranchFilter q = Some s →
             HookTypes.PushEventsBranchFilter q' = Some s)
     ∧ HookTypes.URL q' = HookTypes.URL q
     ∧ HookTypes.Token q' = HookTypes.Token q)
  ∧ VariableClient.LateInitializeVariable p None = p
  ∧ HookClient.LateInitializeHook LateInitializeStringPtr q None = q.
Proof.
  simpl. split; [|split].
  - repeat split; by apply (filled_lateInit _ _).
  - repeat split; try by apply filled_lateInit.
    intros Hkeep s Hs. by rewrite Hs.
  - done.
Qed.

(** C3, counterexample to the claim as stated.  [URL] is a pointer field of
    the hook spec and the remote hook has a URL; when the pointer is nil
    before the call it is still nil after it, while the claim's rule for a
    nil pointer asks for a pointer to the remote value.  [PushEvents], nil
    as well, is filled. *)
Lemma LateInitializeHook_leaves_URL_nil :
  let q := {| HookTypes.URL := None; HookTypes.ConfidentialNoteEvents := None;
              HookTypes.PushEvents := None; HookTypes.PushEventsBranchFilter := None;
              HookTypes.IssuesEvents := None; HookTypes.ConfidentialIssuesEvents := None;
              HookTypes.MergeRequestsEvents := None; HookTypes.TagPushEvents := None;
              HookTypes.NoteEvents := None; HookTypes.JobEvents := None;
              HookTypes.PipelineEvents := None; HookTypes.WikiPageEvents := None;
              HookTypes.EnableSSLVerification := None; HookTypes.Token := None |} in
  let h := {| phID := 1; phURL := "https://my-project.example.com";
              phConfidentialNoteEvents := true; phPushEvents := true;
              phPushEventsBranchFilter := "foo"; phIssuesEvents := true;
              phConfidentialIssuesEvents := true; phMergeRequestsEvents := true;
              phTagPushEvents := true; phNoteEvents := true; phJobEvents := true;
              phPipelineEvents := true; phWikiPageEvents := true;
              phEnableSSLVerification := true; phCreatedAt := None |} in
  let q' := HookClient.LateInitializeHook Fixtures.lateInitializeStringPtr q (Some h) in
  HookTypes.URL q = None
  ∧ HookTypes.URL q' = None
  ∧ ¬ filled (HookTypes.URL q) (phURL h) (HookTypes.URL q')
  ∧ HookTypes.PushEvents q' = Some true.
Proof. simpl. repeat split. discriminate. Qed.

(** The case AllOptionalFields of [TestLateInitializeProjectHook]. *)
Example LateInitializeHook_all_optional_fields :
  HookClient.LateInitializeHook Fixtures.lateInitializeStringPtr
    {| HookTypes.URL := None; HookTypes.ConfidentialNoteEvents := None;
       HookTypes.PushEvents := None; HookTypes.PushEventsBranchFilter := None;
       HookTypes.IssuesEvents := None; HookTypes.ConfidentialIssuesEvents := None;
       HookTypes.MergeRequestsEvents := None; HookTypes.TagPushEvents := None;
       HookTypes.NoteEvents := None; HookTypes.JobEvents := None;
       HookTypes.PipelineEvents := None; HookTypes.WikiPageEvents := None;
       HookTypes.EnableSSLVerification := None; HookTypes.Token := None |}
    (Some {| phID := 0; phURL := ""; phConfidentialNoteEvents := true;
             phPushEvents := true; phPushEventsBranchFilter := "foo";
             phIssuesEvents := true; phConfidentialIssuesEvents := true;
             phMergeRequestsEvents := true; phTagPushEvents := true;
             phNoteEvents := true; phJobEvents := true; phPipelineEvents := true;
             phWikiPageEvents := true; phEnableSSLVerification := true;
             phCreatedAt := None |})
  = {| HookTypes.URL := None; HookTypes.ConfidentialNoteEvents := Some true;
       HookTypes.PushEvents := Some true; HookTypes.PushEventsBranchFilter := Some "foo";
       HookTypes.IssuesEvents := Some true; HookTypes.ConfidentialIssuesEvents := Some true;
       HookTypes.MergeRequestsEvents := Some true; HookTypes.TagPushEvents := Some true;
       HookTypes.NoteEvents := Some true; HookTypes.JobEvents := Some true;
       HookTypes.PipelineEvents := Some true; HookTypes.WikiPageEvents := Some true;
       HookTypes.EnableSSLVerification := Some true; HookTypes.Token := None |}.
Proof. reflexivity. Qed.

(** C10. Not-found classification is a substring test on the error text.
    Both tests answer false for the nil error; for an error that is not nil
    they answer true exactly when its text has the fixed string somewhere
    inside; and two errors with the same text get the same answer, whatever
    their dynamic types. *)
Theorem IsErrorNotFound_is_substring_match (err : option error) :
  (VariableClient.IsErrorVariableNotFound None = false
   ∧ HookClient.IsErrorHookNotFound None = false)
  ∧ (VariableClient.IsErrorVariableNotFound err = true ↔
       ∃ e before after,
         err = Some e ∧ Error e = before +:+ "404 Variable Not Found" +:+ after)
  ∧ (HookClient.IsErrorHookNotFound err = true ↔
       ∃ e before after, err = Some e ∧ Error e = before +:+ "404 Not found" +:+ after)
  ∧ (∀ e1 e2, Error e1 = Error e2 →
       VariableClient.IsErrorVariableNotFound (Some e1)
       = VariableClient.IsErrorVariableNotFound (Some e2)
       ∧ HookClient.IsErrorHookNotFound (Some e1) = HookClient.IsErrorHookNotFound (Some e2)).
Proof.
  split; [done|]. split; [|split].
  - destruct err as [e|]; simpl.
    + rewrite GoFacts.Contains_app. split.
      * intros (before & after & Heq). by exists e, before, after.
      * intros (e' & before & after & He & Heq). injection He as <-. eauto.
    + split; [done | intros (e & ? & ? & ? & _); done].
  - destruct err as [e|]; simpl.
    + rewrite GoFacts.Contains_app. split.
      * intros (before & after & Heq). by exists e, before, after.
      * intros (e' & before & after & He & Heq). injection He as <-. eauto.
    + split; [done | intros (e & ? & ? & ? & _); done].
  - intros e1 e2 Heq. simpl. by rewrite Heq.
Qed.

(** The answer follows the text, not the status of the response: a GitLab
    error response for a missing variable, an error response with status 404
    about something else, a plain error that quotes the text, and the
    difference one letter's case makes to the hook test. *)
Example IsErrorNotFound_cases :
  VariableClient.IsErrorVariableNotFound
    (Some (otherError "*gitlab.ErrorResponse"
             "GET https://gitlab.example.com/api/v4/projects/1/variables/K: 404 {message: 404 Variable Not Found}"))
    = true
  ∧ VariableClient.IsErrorVariableNotFound
      (Some (otherError "*gitlab.ErrorResponse"
               "GET https://gitlab.example.com/api/v4/projects/1: 404 {message: 404 Project Not Found}"))
    = false
  ∧ VariableClient.IsErrorVariableNotFound
      (Some (withStack (fundamental "said 404 Variable Not Found") "cannot get")) = true
  ∧ HookClient.IsErrorHookNotFound (Some (fundamental "404 Not found")) = true
  ∧ HookClient.IsErrorHookNotFound (Some (fundamental "404 Not Found")) = false.
Proof. vm_compute. done. Qed.

End LateInitFacts.

(** ** The group member controller *)

Module MemberFacts.
Import Go Xp Gitlab GroupMemberTypes Members.

(** C5. [isMemberUpToDate p g] is true exactly when the two access levels
    are the same integer and the spec's expiry, the empty string for a nil
    pointer, is the remote expiry printed as a date, the empty string when
    the remote member has none.  [isoTimeToString] answers the empty string
    for the nil interface, for a nil date pointer and for a value that is
    not a date pointer. *)
Theorem isMemberUpToDate_iff (p : MemberParameters) (g : GroupMember) :
  (isMemberUpToDate p g = true ↔
     AccessLevel p = gmAccessLevel g
     ∧ match ExpiresAt p with Some s => s | None => "" end
       = match gmExpiresAt g with Some t => ISOTime_String t | None => "" end)
  ∧ isoTimeToString nilInterface = ""
  ∧ isoTimeToString (isoTimePtr None) = ""
  ∧ (∀ dynType, isoTimeToString (otherValue dynType) = "")
  ∧ (∀ t, isoTimeToString (isoTimePtr (Some t)) = ISOTime_String t).
Proof.
  split; [|done]. unfold isMemberUpToDate, derefString.
  destruct (Z.eqb_spec (AccessLevel p) (gmAccessLevel g)) as [Hlevel|Hlevel]; simpl.
  - destruct (String.eqb_spec
      (match ExpiresAt p with Some v => v | None => "" end)
      (match gmExpiresAt g with Some v => ISOTime_String v | None => "" end))
      as [Hexp|Hexp]; simpl.
    + split; [|done]. intros _. split; [done|].
      destruct (gmExpiresAt g); exact Hexp.
    + split; [done|]. intros [_ Heq]. destruct Hexp.
      destruct (gmExpiresAt g); exact Heq.
  - split; [done | intros [? _]; done].
Qed.

(** The date of member_test.go, and the four ways the two expiries meet. *)
Example isMemberUpToDate_cases :
  let spec exp :=
    {| GroupID := Some 0; GroupIDRef := None; GroupIDSelector := None;
       UserID := 0; AccessLevel := 10; ExpiresAt := exp |} in
  let remote level exp :=
    {| gmID := 0; gmUsername := ""; gmName := ""; gmState := ""; gmAvatarURL := "";
       gmWebURL := ""; gmExpiresAt := exp; gmAccessLevel := level;
       gmGroupSAMLIdentity := None |} in
  let may4 := {| year := 2021; month := 5; day := 4 |} in
  ISOTime_String may4 = "2021-05-04"
  ∧ isMemberUpToDate (spec (Some "2021-05-04")) (remote 10 (Some may4)) = true
  ∧ isMemberUpToDate (spec None) (remote 10 None) = true
  ∧ isMemberUpToDate (spec None) (remote 10 (Some may4)) = false
  ∧ isMemberUpToDate (spec (Some "2021-05-04")) (remote 10 None) = false
  ∧ isMemberUpToDate (spec (Some "")) (remote 10 None) = true
  ∧ isMemberUpToDate (spec None) (remote 30 None) = false.
Proof. vm_compute. done. Qed.

Section Guards.
Context `{GroupsPkg}.

(** The nil interface and a value of another type fail the type assertion
    in each of the four methods, before any call. *)
Lemma Members_not_a_member (e : external) (mg : Managed Member) (log : list Call) :
  (∀ cr, mg ≠ managed cr) →
  Observe e mg log = (Returns (mg, noObservation, New errNotMember), log)
  ∧ Create e mg log = (Returns (mg, noCreation, New errNotMember), log)
  ∧ Update e mg log = (Returns (mg, noUpdate, New errNotMember), log)
  ∧ Delete e mg log = (Returns (mg, (), New errNotMember), log).
Proof.
  intros Hnot. destruct mg as [|cr|kind]; [done | by destruct (Hnot cr) | done].
Qed.

(** A member without a group id fails each of the four methods, before any
    call. *)
Lemma Members_group_id_not_set (e : external) (cr : Member) (log : list Call) :
  GroupID (ForProvider (Spec cr)) = None →
  Observe e (managed cr) log = (Returns (managed cr, noObservation, New errMissingGroupID), log)
  ∧ Create e (managed cr) log = (Returns (managed cr, noCreation, New errMissingGroupID), log)
  ∧ Update e (managed cr) log = (Returns (managed cr, noUpdate, New errMissingGroupID), log)
  ∧ Delete e (managed cr) log = (Returns (managed cr, (), New errMissingGroupID), log).
Proof. intros Hnil. unfold Observe, Create, Update, Delete. by rewrite Hnil. Qed.

(** A failed GET ends [Observe]: the resource is as it was, the observation
    is empty, and the error is nil for a not-found response and the wrapped
    error otherwise. *)
Lemma Members_Observe_get_failed (e : external) (cr : Member) (gid : Z)
    (gm : option GroupMember) (res : option Response) (err : error) (log : list Call) :
  GroupID (ForProvider (Spec cr)) = Some gid →
  GetGroupMember (client e) gid (UserID (ForProvider (Spec cr))) = (gm, res, Some err) →
  Observe e (managed cr) log =
    (Returns (managed cr, noObservation,
              if Clients.IsResponseNotFound res then None
              else Some (withStack err errGetFailed)),
     log ++ [CallGetGroupMember gid (UserID (ForProvider (Spec cr)))]).
Proof.
  intros Hgid Hget. unfold Observe. rewrite Hgid.
  unfold mbind, Op_bind, perform. rewrite Hget. simpl.
  by destruct (Clients.IsResponseNotFound res).
Qed.

(** A successful GET: the status is rewritten, the spec is not. *)
Lemma Members_Observe_found (e : external) (cr : Member) (gid : Z)
    (g : GroupMember) (res : option Response) (log : list Call) :
  GroupID (ForProvider (Spec cr)) = Some gid →
  GetGroupMember (client e) gid (UserID (ForProvider (Spec cr))) = (Some g, res, None) →
  ∃ cr',
    Observe e (managed cr) log =
      (Returns (managed cr',
                {| ResourceExists := true;
                   ResourceUpToDate := isMemberUpToDate (ForProvider (Spec cr)) g;
                   ResourceLateInitialized := false;
                   ObservedConnectionDetails := ∅ |},
                None),
       log ++ [CallGetGroupMember gid (UserID (ForProvider (Spec cr)))])
    ∧ Spec cr' = Spec cr ∧ Meta cr' = Meta cr
    ∧ AtProvider (Status cr') = GenerateMemberObservation (Some g).
Proof.
  intros Hgid Hget. eexists. unfold Observe. rewrite Hgid.
  unfold mbind, Op_bind, perform. rewrite Hget. simpl. done.
Qed.

End Guards.

End MemberFacts.

(** ** The deploy key controller *)

Module DeployKeyFacts.
Import Go Xp Gitlab DeployKeyTypes DeployKeys.

(** The empty string and a string with a letter in it are no integers for
    [strconv.Atoi]; a run of digits, signed or not, is one. *)
Example Atoi_cases :
  Atoi "" = inr (NumError "Atoi" "" ErrSyntax)
  ∧ Atoi "notAnInt" = inr (NumError "Atoi" "notAnInt" ErrSyntax)
  ∧ Atoi "123A" = inr (NumError "Atoi" "123A" ErrSyntax)
  ∧ Atoi "-" = inr (NumError "Atoi" "-" ErrSyntax)
  ∧ Atoi "9223372036854775808" = inr (NumError "Atoi" "9223372036854775808" ErrRange)
  ∧ Atoi "123" = inl 123
  ∧ Atoi "-42" = inl (-42)
  ∧ Atoi "+7" = inl 7
  ∧ Itoa 123 = "123".
Proof. vm_compute. done. Qed.

Section Guards.
Context `{ControllerPkg}.

(** A deploy key without a project id fails each of the four methods,
    before any call. *)
Lemma DeployKeys_project_id_missing (e : external) (cr : DeployKey) (log : list Call) :
  ProjectID (ForProvider (Spec cr)) = None →
  Observe e (managed cr) log
    = (Returns (managed cr, noObservation, New errProjectIDMissing), log)
  ∧ Create e (managed cr) log = (Returns (managed cr, noCreation, New errProjectIDMissing), log)
  ∧ Update e (managed cr) log = (Returns (managed cr, noUpdate, New errProjectIDMissing), log)
  ∧ Delete e (managed cr) log = (Returns (managed cr, (), New errProjectIDMissing), log).
Proof. intros Hnil. unfold Observe, Create, Update, Delete. by rewrite Hnil. Qed.

(** What is no deploy key fails [Observe], [Create] and [Update] with
    [errNotDeployKey], before any call. *)
Lemma DeployKeys_not_a_deploy_key (e : external) (mg : Managed DeployKey) (log : list Call) :
  (∀ cr, mg ≠ managed cr) →
  Observe e mg log = (Returns (mg, noObservation, New errNotDeployKey), log)
  ∧ Create e mg log = (Returns (mg, noCreation, New errNotDeployKey), log)
  ∧ Update e mg log = (Returns (mg, noUpdate, New errNotDeployKey), log).
Proof.
  intros Hnot. destruct mg as [|cr|kind]; [done | by destruct (Hnot cr) | done].
Qed.

Lemma DeployKeys_Observe_get_failed (e : external) (cr : DeployKey) (pid : string) (id : Z)
    (dk : option ProjectDeployKey) (res : option Response) (err : error) (log : list Call) :
  ProjectID (ForProvider (Spec cr)) = Some pid →
  Atoi (GetExternalName (Meta cr)) = inl id →
  GetDeployKey (client e) pid id = (dk, res, Some err) →
  Observe e (managed cr) log =
    (Returns (managed cr, noObservation,
              if Clients.IsResponseNotFound res then None
              else Some (withStack err errGetFail)),
     log ++ [CallGetDeployKey pid id]).
Proof.
  intros Hpid Hid Hget. unfold Observe. rewrite Hpid, Hid.
  unfold mbind, Op_bind, perform. rewrite Hget. simpl.
  by destruct (Clients.IsResponseNotFound res).
Qed.

End Guards.


(** C8. A deploy key with its project id set whose external name
    [strconv.Atoi] rejects (the empty name, a name that is no decimal
    integer) fails [Observe] with the plain error [errIDNotAnInt], and
    [Update] and [Delete] with the error of [strconv.Atoi] wrapped in that
    message.  No call is made, the resource is as it was, and [Observe] does
    not report a resource that does not exist: its error is not nil. *)
Theorem DeployKeys_id_not_an_int
    (K : ControllerPkg) (e : external) (cr : DeployKey) (pid : string)
    (atoiErr : error) (log : list Call) :
  ProjectID (ForProvider (Spec cr)) = Some pid →
  Atoi (GetExternalName (Meta cr)) = inr atoiErr →
  Observe e (managed cr) log
    = (Returns (managed cr, noObservation, Some (fundamental errIDNotAnInt)), log)
  ∧ Update e (managed cr) log
    = (Returns (managed cr, noUpdate, Some (withStack atoiErr errIDNotAnInt)), log)
  ∧ Delete e (managed cr) log
    = (Returns (managed cr, (), Some (withStack atoiErr errIDNotAnInt)), log)
  ∧ Observe e (managed cr) log ≠ (Returns (managed cr, noObservation, None), log)
  ∧ Error (fundamental errIDNotAnInt) = "ID is not an integer value"
  ∧ Error (withStack atoiErr errIDNotAnInt)
    = "ID is not an integer value: " +:+ Error atoiErr.
Proof.
  intros Hpid Hid. unfold Observe, Update, Delete. rewrite Hpid, Hid.
  repeat split. intros Heq. discriminate Heq.
Qed.

(** C8 at the cases NoExternalNameSet of [TestObserve] and IdIsNotAnInt of
    [TestUpdate]: no external name, and the external name 123A. *)
Lemma DeployKeys_id_not_an_int_witness :
  let e := Fixtures.deployKeyExternal (None, None, None) None in
  let unnamed := Fixtures.buildDeployKey None "" None in
  let named := Fixtures.buildDeployKey (Some "123A") "" None in
  Observe (H := Fixtures.deployKeyPkg) e (managed unnamed) []
    = (Returns (managed unnamed, noObservation,
                Some (fundamental "ID is not an integer value")), [])
  ∧ Update (H := Fixtures.deployKeyPkg) e (managed named) []
    = (Returns (managed named, noUpdate,
                Some (withStack (NumError "Atoi" "123A" ErrSyntax)
                        "ID is not an integer value")), []).
Proof.
  intros e unnamed named. split.
  - exact (proj1 (DeployKeys_id_not_an_int Fixtures.deployKeyPkg e unnamed
                    Fixtures.testProjectID (NumError "Atoi" "" ErrSyntax) []
                    eq_refl eq_refl)).
  - exact (proj1 (proj2 (DeployKeys_id_not_an_int Fixtures.deployKeyPkg e named
                    Fixtures.testProjectID (NumError "Atoi" "123A" ErrSyntax) []
                    eq_refl eq_refl))).
Defined.

(** The model against the cases of controller_test.go that reach GitLab:
    GetErr404, GetKeyClientError, the two successes of [TestObserve],
    SuccessfullyAdd, FailUpdate and SuccessDelete. *)
Example DeployKeys_test_cases :
  let K := Fixtures.deployKeyPkg in
  let named := Fixtures.buildDeployKey (Some Fixtures.testExternalName) in
  let get := CallGetDeployKey Fixtures.testProjectID 123 in
  let found := (Some Fixtures.testDeployKey, Some {| StatusCode := 200 |}, None) in
  let status :=
    {| Conditions := [Available];
       AtProvider := {| ID := Some 123; CreatedAt := Some Fixtures.testCreatedAt |} |} in
  Observe (Fixtures.deployKeyExternal
             (None, Some {| StatusCode := 404 |}, Some (fundamental "")) None)
      (managed (named "" None)) []
    = (Returns (managed (named "" None), noObservation, None), [get])
  ∧ Observe (Fixtures.deployKeyExternal
               (None, Some {| StatusCode := 400 |}, Some (fundamental "testGetKeyError")) None)
      (managed (named "" None)) []
    = (Returns (managed (named "" None), noObservation,
                Some (withStack (fundamental "testGetKeyError") errGetFail)), [get])
  ∧ Observe (Fixtures.deployKeyExternal found None) (managed (named "" None)) []
    = (Returns
         (managed {| Meta := Meta (named "" None);
                     Spec := Spec (named "" (Some true));
                     Status := status |},
          {| ResourceExists := true; ResourceUpToDate := false;
             ResourceLateInitialized := true; ObservedConnectionDetails := ∅ |},
          None), [get])
  ∧ Observe (Fixtures.deployKeyExternal found None)
      (managed (named Fixtures.testKeyTitle (Some true))) []
    = (Returns
         (managed {| Meta := Meta (named "" None);
                     Spec := Spec (named Fixtures.testKeyTitle (Some true));
                     Status := status |},
          {| ResourceExists := true; ResourceUpToDate := true;
             ResourceLateInitialized := false; ObservedConnectionDetails := ∅ |},
          None), [get])
  ∧ (Create (Fixtures.deployKeyExternal found None)
       (managed (Fixtures.buildDeployKey None "" None)) []).1
    = Returns (managed (named "" None), noCreation, None)
  ∧ (Update (Fixtures.deployKeyExternal found (Some (fundamental "error")))
       (managed (named Fixtures.testKeyTitle (Some true))) []).1
    = Returns (managed (named Fixtures.testKeyTitle (Some true)), noUpdate,
               Some (withStack (fundamental "error") errUpdateFail))
  ∧ (Delete (Fixtures.deployKeyExternal found None) (managed (named "" None)) [])
    = (Returns (managed (named "" None), (), None),
       [CallDeleteDeployKey Fixtures.testProjectID 123]).
Proof. vm_compute. done. Qed.

(** With a text of its own for each message, the error [Delete] returns for
    what is no deploy key reads differently from the one its siblings
    return. *)
Example DeployKeys_Delete_message_differs :
  let K := Fixtures.deployKeyPkg in
  let e := Fixtures.deployKeyExternal (None, None, None) None in
  (Delete e nilManaged []).1
    = Returns (nilManaged, (), Some (fundamental "cannot delete Gitlab deploy key"))
  ∧ (Update e nilManaged []).1
    = Returns (nilManaged, noUpdate,
               Some (fundamental "managed resource is not a Gitlab deploy key custom resource")).
Proof. done. Qed.

End DeployKeyFacts.

(** ** Observe decides existence from the result of the GET *)

Module ObserveFacts.
Import Go Xp Gitlab.

(** C1. In the group member controller and in the deploy key controller,
    for a resource with its ids set (the group id; the project id and an
    external name that is an integer), a GET that fails ends [Observe] with
    the empty observation and the resource as it was, status included: the
    error is nil when the response is a not-found response, and the error of
    the GET wrapped in the controller's get-failed message otherwise.  A
    not-found response is one with HTTP status 404. *)
Theorem Observe_get_failure :
  (∀ (G : Members.GroupsPkg) (e : Members.external) (cr : GroupMemberTypes.Member)
     (gid : Z) (gm : option GroupMember) (res : option Response) (err : error)
     (log : list Members.Call),
     let user := GroupMemberTypes.UserID (GroupMemberTypes.ForProvider (GroupMemberTypes.Spec cr)) in
     GroupMemberTypes.GroupID (GroupMemberTypes.ForProvider (GroupMemberTypes.Spec cr))
       = Some gid →
     Members.GetGroupMember (Members.client e) gid user = (gm, res, Some err) →
     Members.Observe e (managed cr) log =
       (Returns (managed cr, noObservation,
                 if Clients.IsResponseNotFound res then None
                 else Some (withStack err Members.errGetFailed)),
        log ++ [Members.CallGetGroupMember gid user]))
  ∧ (∀ (K : DeployKeys.ControllerPkg) (e : DeployKeys.external)
       (cr : DeployKeyTypes.DeployKey) (pid : string) (id : Z)
       (dk : option ProjectDeployKey) (res : option Response) (err : error)
       (log : list DeployKeys.Call),
       DeployKeyTypes.ProjectID (DeployKeyTypes.ForProvider (DeployKeyTypes.Spec cr))
         = Some pid →
       Atoi (GetExternalName (DeployKeyTypes.Meta cr)) = inl id →
       DeployKeys.GetDeployKey (DeployKeys.client e) pid id = (dk, res, Some err) →
       DeployKeys.Observe e (managed cr) log =
         (Returns (managed cr, noObservation,
                   if Clients.IsResponseNotFound res then None
                   else Some (withStack err DeployKeys.errGetFail)),
          log ++ [DeployKeys.CallGetDeployKey pid id]))
  ∧ (∀ res, Clients.IsResponseNotFound res = true ↔ ∃ r, res = Some r ∧ StatusCode r = 404).
Proof.
  split; [|split].
  - intros G e cr gid gm res err log user. apply MemberFacts.Members_Observe_get_failed.
  - intros K e cr pid id dk res err log. apply DeployKeyFacts.DeployKeys_Observe_get_failed.
  - intros [r|]; simpl.
    + rewrite Z.eqb_eq. split; [eauto | intros (r' & Hr & H404); congruence].
    + split; [done | intros (r & Hr & _); done].
Qed.

(** C1 at concrete inputs: a member of group 7 whose GET answers 404, the
    same with status 500, and the case GetErr404 of the deploy keys'
    [TestObserve]. *)
Lemma Observe_get_failure_witness :
  let boom := fundamental "boom" in
  let member := Fixtures.member (Some 7) in
  let key := Fixtures.buildDeployKey (Some Fixtures.testExternalName) "" None in
  Members.Observe (H := Fixtures.groupsPkg)
      {| Members.client := Fixtures.failingMemberClient 404 boom |} (managed member) []
    = (Returns (managed member, noObservation, None), [Members.CallGetGroupMember 7 42])
  ∧ Members.Observe (H := Fixtures.groupsPkg)
      {| Members.client := Fixtures.failingMemberClient 500 boom |} (managed member) []
    = (Returns (managed member, noObservation,
                Some (withStack boom "cannot get Gitlab Group Member")),
       [Members.CallGetGroupMember 7 42])
  ∧ DeployKeys.Observe (H := Fixtures.deployKeyPkg)
      (Fixtures.deployKeyExternal
         (None, Some {| StatusCode := 404 |}, Some (fundamental "")) None)
      (managed key) []
    = (Returns (managed key, noObservation, None),
       [DeployKeys.CallGetDeployKey Fixtures.testProjectID 123]).
Proof.
  intros boom member key. split; [|split].
  - exact (proj1 Observe_get_failure Fixtures.groupsPkg
             {| Members.client := Fixtures.failingMemberClient 404 boom |} member 7
             None (Some {| StatusCode := 404 |}) boom [] eq_refl eq_refl).
  - exact (proj1 Observe_get_failure Fixtures.groupsPkg
             {| Members.client := Fixtures.failingMemberClient 500 boom |} member 7
             None (Some {| StatusCode := 500 |}) boom [] eq_refl eq_refl).
  - refine (proj1 (proj2 Observe_get_failure) Fixtures.deployKeyPkg
             (Fixtures.deployKeyExternal
                (None, Some {| StatusCode := 404 |}, Some (fundamental "")) None)
             key Fixtures.testProjectID 123 None (Some {| StatusCode := 404 |})
             (fundamental "") [] eq_refl _ eq_refl).
    vm_compute. reflexivity.
Defined.

End ObserveFacts.

(** ** The project controller: late initialisation and its persistence *)

Module ProjectFacts.
Import Go Xp.
Import ProjectController.

Section LateInit.
Context `{ProjectsPkg}.
Variable created : Project → GitlabProject → Project * ExternalCreation * option error.

(** The spec of [cr] after late initialisation from [prj]. *)
Local Abbreviation lateInitialized cr prj :=
  (withForProvider cr (LateInitialize (ForProvider (Spec cr)) prj)).

(** C9. Late initialisation in [Observe] and [Create] of a project is not
    undone when it cannot be persisted.  When the GitLab call succeeds with
    the remote project [prj], late initialisation from [prj] changes the
    spec, and the Kubernetes update of the resource fails with [kerr], the
    method returns the empty result and [kerr] wrapped in the
    kube-update-failed message, and the resource it leaves holds the late
    initialised spec (its metadata and status are as they were); the
    Kubernetes update was the last call made. *)
Theorem late_initialization_is_not_rolled_back
    (e : external) (cr : Project) (prj : GitlabProject)
    (res : option Gitlab.Response) (kerr : error) (log : list Call) :
  cmpEqual (ForProvider (Spec cr)) (LateInitialize (ForProvider (Spec cr)) prj) = false →
  KubeUpdate (kube e) (lateInitialized cr prj) = Some kerr →
  (GetProject (client e) cr = (Some prj, res, None) →
   Observe e (managed cr) log =
     (Returns (managed (lateInitialized cr prj), noObservation,
               Some (withStack kerr errKubeUpdateFailed)),
      log ++ [CallGetProject cr] ++ [CallKubeUpdate (lateInitialized cr prj)]))
  ∧ (CreateProject (client e) cr = (Some prj, res, None) →
     Create created e (managed cr) log =
       (Returns (managed (lateInitialized cr prj), noCreation,
                 Some (withStack kerr errKubeUpdateFailed)),
        log ++ [CallCreateProject cr] ++ [CallKubeUpdate (lateInitialized cr prj)]))
  ∧ ForProvider (Spec (lateInitialized cr prj)) = LateInitialize (ForProvider (Spec cr)) prj
  ∧ Meta (lateInitialized cr prj) = Meta cr
  ∧ Status (lateInitialized cr prj) = Status cr.
Proof.
  intros Hchanged Hkube.
  assert (∀ l, lateInitialize e cr prj l =
    ((lateInitialized cr prj, true, Some (withStack kerr errKubeUpdateFailed)),
     l ++ [CallKubeUpdate (lateInitialized cr prj)])) as Hlate.
  { intros l. unfold lateInitialize. simpl. rewrite Hchanged.
    unfold mbind, Op_bind, perform. simpl. by rewrite Hkube. }
  split; [|split; [|done]].
  - intros Hget. unfold Observe, mbind, Op_bind, perform. rewrite Hget. simpl.
    rewrite Hlate. by rewrite <- app_assoc.
  - intros Hcreate. unfold Create, mbind, Op_bind, perform. rewrite Hcreate. simpl.
    rewrite Hlate. by rewrite <- app_assoc.
Qed.

(** When the update goes through, [Observe] reports the late
    initialisation and sets the status. *)
Lemma Observe_late_initialized (e : external) (cr : Project) (prj : GitlabProject)
    (res : option Gitlab.Response) (log : list Call) :
  GetProject (client e) cr = (Some prj, res, None) →
  cmpEqual (ForProvider (Spec cr)) (LateInitialize (ForProvider (Spec cr)) prj) = false →
  KubeUpdate (kube e) (lateInitialized cr prj) = None →
  ∃ cr' o,
    Observe e (managed cr) log =
      (Returns (managed cr', o, None),
       log ++ [CallGetProject cr] ++ [CallKubeUpdate (lateInitialized cr prj)])
    ∧ ResourceExists o = true ∧ ResourceLateInitialized o = true
    ∧ Spec cr' = Spec (lateInitialized cr prj)
    ∧ Conditions (Status cr') = SetConditions (Conditions (Status cr)) [Available].
Proof.
  intros Hget Hchanged Hkube. do 2 eexists.
  unfold Observe, mbind, Op_bind, perform. rewrite Hget. simpl.
  unfold lateInitialize. simpl. rewrite Hchanged.
  unfold mbind, Op_bind, perform. simpl. rewrite Hkube. simpl.
  rewrite <- app_assoc. done.
Qed.

End LateInit.

(** C9 at the two cases LateInitFailedKubeUpdate of the project
    controller's test: the remote project has a path, the spec has none, and
    the Kubernetes update answers boom. *)
Lemma late_initialization_is_not_rolled_back_witness :
  let e := Fixtures.projectExternal (Some Fixtures.errBoom) in
  let withPath :=
    @withForProvider Fixtures.projectsPkg Fixtures.project
      {| Fixtures.Path := Some Fixtures.path |} in
  let err := Some (withStack Fixtures.errBoom "cannot update Gitlab project custom resource") in
  Observe e (managed Fixtures.project) []
    = (Returns (managed withPath, noObservation, err),
       [CallGetProject Fixtures.project; CallKubeUpdate withPath])
  ∧ Create (λ cr _, (cr, noCreation, None)) e (managed Fixtures.project) []
    = (Returns (managed withPath, noCreation, err),
       [CallCreateProject Fixtures.project; CallKubeUpdate withPath]).
Proof.
  intros e withPath err.
  pose proof (@late_initialization_is_not_rolled_back Fixtures.projectsPkg
                (λ cr _, (cr, noCreation, None)) e Fixtures.project
                {| Fixtures.prjName := ""; Fixtures.prjPath := Fixtures.path;
                   Fixtures.prjRunnersToken := "" |}
                (Some {| Gitlab.StatusCode := 200 |}) Fixtures.errBoom []
                eq_refl eq_refl) as (Hobserve & Hcreate & _).
  split; [exact (Hobserve eq_refl) | exact (Hcreate eq_refl)].
Defined.

(** The model against the other cases of the project controller's
    [TestObserve]: FailedGetRequest, and LateInitSuccess with its runners
    token. *)
Example Project_Observe_test_cases :
  let failing : @external Fixtures.projectsPkg :=
    {| kube := {| KubeUpdate := λ _, None |};
       client := {| GetProject := λ _, (None, None, Some Fixtures.errBoom);
                    CreateProject := λ _, (None, None, Some Fixtures.errBoom) |} |} in
  let remote : @GitlabProject Fixtures.projectsPkg :=
    {| Fixtures.prjName := ""; Fixtures.prjPath := Fixtures.path;
       Fixtures.prjRunnersToken := "token" |} in
  let working : @external Fixtures.projectsPkg :=
    {| kube := {| KubeUpdate := λ _, None |};
       client := {| GetProject := λ _, (Some remote, None, None);
                    CreateProject := λ _, (Some remote, None, None) |} |} in
  (Observe failing (managed Fixtures.project) []).1
    = Returns (managed Fixtures.project, noObservation,
               Some (withStack Fixtures.errBoom "cannot get Gitlab project"))
  ∧ (Observe working (managed Fixtures.project) []).1
    = Returns
        (managed {| Meta := Meta Fixtures.project;
                    Spec := @Build_ProjectSpec Fixtures.projectsPkg
                              {| Fixtures.Path := Some Fixtures.path |};
                    Status := @Build_ProjectStatus Fixtures.projectsPkg
                                [Available] (Some "") |},
         {| ResourceExists := true; ResourceUpToDate := true;
            ResourceLateInitialized := true;
            ObservedConnectionDetails := {[ "runnersToken" := "token" ]} |},
         None).
Proof. vm_compute. done. Qed.

End ProjectFacts.

(** ** Project variables: how the client's functions compose *)

Module VariableMore.
Import Go Gitlab VariableTypes VariableClient.

Lemma upToDate_cmpEqual (p : VariableParameters) (g : ProjectVariable) :
  IsVariableUpToDate (Some p) (Some g) = Returns true ↔
  cmpEqual p (VariableToParameters g) = true.
Proof. simpl. split; [congruence | by intros ->]. Qed.

(** X1. Late initialisation followed by the drift check.  Once the spec was
    late initialised from the remote variable [g], it is reported up to date
    against [g] exactly when [Key] and [Value] are those of [g] and every
    optional pointer the spec had set before points to the value of [g]; the
    pointers that were nil no longer count as drift. *)
Theorem LateInitializeVariable_then_up_to_date (p : VariableParameters) (g : ProjectVariable) :
  IsVariableUpToDate (Some (LateInitializeVariable p (Some g))) (Some g) = Returns true ↔
    Key p = pvKey g
    ∧ Value p = pvValue g
    ∧ (VariableType p = None ∨ VariableType p = Some (pvVariableType g))
    ∧ (Protected p = None ∨ Protected p = Some (pvProtected g))
    ∧ (Masked p = None ∨ Masked p = Some (pvMasked g))
    ∧ (EnvironmentScope p = None ∨ EnvironmentScope p = Some (pvEnvironmentScope g)).
Proof.
  rewrite upToDate_cmpEqual, VariableFacts.cmpEqual_spec. simpl.
  destruct (VariableType p), (Protected p), (Masked p), (EnvironmentScope p);
    intuition congruence.
Qed.

(** X2. Late initialisation reaches a fixed point in one step.  After a
    call with a remote variable that is not nil the four optional pointers
    are all set, and a further call, with any remote variable or with nil,
    returns the spec as it is. *)
Theorem LateInitializeVariable_idempotent
    (p : VariableParameters) (v : ProjectVariable) (v' : option ProjectVariable) :
  let p' := LateInitializeVariable p (Some v) in
  LateInitializeVariable p' v' = p'
  ∧ is_Some (VariableType p') ∧ is_Some (Protected p')
  ∧ is_Some (Masked p') ∧ is_Some (EnvironmentScope p').
Proof.
  simpl. split.
  - destruct v' as [w|]; [|done]. unfold LateInitializeVariable. simpl.
    by destruct (VariableType p), (Protected p), (Masked p), (EnvironmentScope p).
  - by destruct (VariableType p), (Protected p), (Masked p), (EnvironmentScope p).
Qed.

(** X3. The drift check compares what a create request would send.  A spec
    is up to date against [g] exactly when the create options generated
    from it are those generated from the conversion of [g]; and exactly when
    its [Key] is that of [g] and its update options are those generated from
    the conversion of [g] (the update options do not carry the key). *)
Theorem up_to_date_iff_same_options (p : VariableParameters) (g : ProjectVariable) :
  (IsVariableUpToDate (Some p) (Some g) = Returns true ↔
     GenerateCreateVariableOptions p = GenerateCreateVariableOptions (VariableToParameters g))
  ∧ (IsVariableUpToDate (Some p) (Some g) = Returns true ↔
       Key p = pvKey g
       ∧ GenerateUpdateVariableOptions p
         = GenerateUpdateVariableOptions (VariableToParameters g)).
Proof.
  rewrite !upToDate_cmpEqual, !VariableFacts.cmpEqual_spec.
  unfold GenerateCreateVariableOptions, GenerateUpdateVariableOptions. simpl. split.
  - split.
    + intros (-> & -> & -> & -> & -> & ->). done.
    + intros Heq. injection Heq as HK HV HT HP HM HE. done.
  - split.
    + intros (-> & -> & -> & -> & -> & ->). done.
    + intros [HK Heq]. injection Heq as HV HT HP HM HE. done.
Qed.

(** A spec that names another key is reported as drift although the update
    it would send is the one of a spec in sync. *)
Example update_options_do_not_carry_Key :
  let g := {| pvKey := "KEY"; pvValue := "value"; pvVariableType := "env_var";
              pvProtected := false; pvMasked := true; pvEnvironmentScope := "*" |} in
  let p := {| ProjectID := None; ProjectIDRef := None; ProjectIDSelector := None;
              Key := "OTHER"; Value := "value"; Masked := Some true;
              Protected := Some false; VariableType := Some "env_var";
              EnvironmentScope := Some "*" |} in
  IsVariableUpToDate (Some p) (Some g) = Returns false
  ∧ GenerateUpdateVariableOptions p = GenerateUpdateVariableOptions (VariableToParameters g).
Proof. done. Qed.

Lemma append_assoc (a b c : string) : (a +:+ b) +:+ c = a +:+ (b +:+ c).
Proof.
  induction a as [|x a IH]; [done|].
  change (String x ((a +:+ b) +:+ c) = String x (a +:+ (b +:+ c))). by rewrite IH.
Qed.

(** The text of a wrapped error ends with the text of its cause. *)
Lemma Contains_Wrap (e : error) (msg needle : string) :
  Contains (Error e) needle = true → Contains (Error (withStack e msg)) needle = true.
Proof.
  rewrite !GoFacts.Contains_app. intros (before & after & Heq). simpl.
  exists (msg +:+ ": " +:+ before), after. rewrite Heq.
  by rewrite !append_assoc.
Qed.

Lemma Contains_Wrap_msg (e : error) (msg needle : string) :
  Contains msg needle = true → Contains (Error (withStack e msg)) needle = true.
Proof.
  rewrite !GoFacts.Contains_app. intros (before & after & ->). simpl.
  exists before, (after +:+ ": " +:+ Error e).
  by rewrite !append_assoc.
Qed.

(** X4. Not-found classification and [errors.Wrap].  An error that either
    test classifies as not found is still classified so after it was
    wrapped, whatever the message; wrapping the nil error gives nil, which
    neither test classifies as not found, even with a message that holds the
    searched text; and an error wrapped in a message that holds the searched
    text is classified as not found whatever the cause. *)
Theorem Wrap_keeps_not_found (err : option error) (msg : string) :
  (VariableClient.IsErrorVariableNotFound err = true →
   VariableClient.IsErrorVariableNotFound (Wrap err msg) = true)
  ∧ (HookClient.IsErrorHookNotFound err = true →
     HookClient.IsErrorHookNotFound (Wrap err msg) = true)
  ∧ VariableClient.IsErrorVariableNotFound (Wrap None msg) = false
  ∧ HookClient.IsErrorHookNotFound (Wrap None msg) = false
  ∧ (∀ e, Contains msg VariableClient.errVariableNotFound = true →
          VariableClient.IsErrorVariableNotFound (Wrap (Some e) msg) = true)
  ∧ (∀ e, Contains msg HookClient.errHookNotFound = true →
          HookClient.IsErrorHookNotFound (Wrap (Some e) msg) = true).
Proof.
  repeat split; try done.
  - destruct err as [e|]; [|done]. apply Contains_Wrap.
  - destruct err as [e|]; [|done]. apply Contains_Wrap.
  - intros e. apply Contains_Wrap_msg.
  - intros e. apply Contains_Wrap_msg.
Qed.

(** X4 at a GitLab error for a missing variable, wrapped by a controller. *)
Lemma Wrap_keeps_not_found_witness :
  let err := Some (otherError "*gitlab.ErrorResponse"
                     "GET https://gitlab.example.com/api/v4/projects/1/variables/K: 404 {message: 404 Variable Not Found}") in
  VariableClient.IsErrorVariableNotFound (Wrap err "cannot get Gitlab variable") = true.
Proof.
  intros err. exact (proj1 (Wrap_keeps_not_found err "cannot get Gitlab variable") eq_refl).
Defined.

End VariableMore.

(** ** Project hooks: options and drift *)

Module HookMore.
Import Go Gitlab HookTypes HookClient HookOptions.

(** The example Full of the observation test: the id and the creation time
    are copied; a nil hook gives the zero observation. *)
Example GenerateHookObservation_cases :
  GenerateHookObservation (Some (MoreFixtures.hook "" "" true))
    = {| ID := 5; CreatedAt := Some 1620000000 |}
  ∧ GenerateHookObservation None = {| ID := 0; CreatedAt := None |}.
Proof. done. Qed.

(** X5. What a create or an edit request carries after late
    initialisation.  Whatever [clients.LateInitializeStringPtr] does, the
    options generated from a spec late initialised from the remote hook [h]
    carry the URL and the token of the spec as they were, never those of
    [h], and each of the eleven flags set: the value of the spec where it
    had one, the value of [h] where it had none.  The edit options agree
    with the create options on all fourteen fields, token included. *)
Theorem options_after_late_initialization
    (f : option string → string → option string) (p : HookParameters) (h : ProjectHook) :
  let c := GenerateCreateHookOptions (LateInitializeHook f p (Some h)) in
  (aURL c = URL p ∧ aToken c = Token p
   ∧ aPushEventsBranchFilter c = f (PushEventsBranchFilter p) (phPushEventsBranchFilter h))
  ∧ (aConfidentialNoteEvents c
       = Some (default (phConfidentialNoteEvents h) (ConfidentialNoteEvents p))
     ∧ aPushEvents c = Some (default (phPushEvents h) (PushEvents p))
     ∧ aIssuesEvents c = Some (default (phIssuesEvents h) (IssuesEvents p))
     ∧ aConfidentialIssuesEvents c
       = Some (default (phConfidentialIssuesEvents h) (ConfidentialIssuesEvents p))
     ∧ aMergeRequestsEvents c
       = Some (default (phMergeRequestsEvents h) (MergeRequestsEvents p))
     ∧ aTagPushEvents c = Some (default (phTagPushEvents h) (TagPushEvents p))
     ∧ aNoteEvents c = Some (default (phNoteEvents h) (NoteEvents p))
     ∧ aJobEvents c = Some (default (phJobEvents h) (JobEvents p))
     ∧ aPipelineEvents c = Some (default (phPipelineEvents h) (PipelineEvents p))
     ∧ aWikiPageEvents c = Some (default (phWikiPageEvents h) (WikiPageEvents p))
     ∧ aEnableSSLVerification c
       = Some (default (phEnableSSLVerification h) (EnableSSLVerification p)))
  ∧ (∀ q : HookParameters,
       let a := GenerateCreateHookOptions q in
       let e := GenerateEditHookOptions q in
       eURL e = aURL a ∧ eToken e = aToken a
       ∧ ePushEventsBranchFilter e = aPushEventsBranchFilter a
       ∧ eConfidentialNoteEvents e = aConfidentialNoteEvents a
       ∧ ePushEvents e = aPushEvents a ∧ eIssuesEvents e = aIssuesEvents a
       ∧ eConfidentialIssuesEvents e = aConfidentialIssuesEvents a
       ∧ eMergeRequestsEvents e = aMergeRequestsEvents a
       ∧ eTagPushEvents e = aTagPushEvents a ∧ eNoteEvents e = aNoteEvents a
       ∧ eJobEvents e = aJobEvents a ∧ ePipelineEvents e = aPipelineEvents a
       ∧ eWikiPageEvents e = aWikiPageEvents a
       ∧ eEnableSSLVerification e = aEnableSSLVerification a).
Proof.
  simpl. split; [done|]. split; [|done]. unfold lateInit.
  repeat split;
    match goal with |- context [match ?field with _ => _ end] => by destruct field end.
Qed.

(** X14. A second late initialisation of a hook spec can change nothing but
    the branch filter.  After a call with a remote hook that is not nil the
    eleven flags are all set; a further call, with any remote hook, returns
    the spec with the branch filter passed once more through
    [clients.LateInitializeStringPtr] and every other field as it is, and a
    further call with nil returns the spec as it is. *)
Theorem LateInitializeHook_twice
    (f : option string → string → option string) (p : HookParameters)
    (h h' : ProjectHook) :
  let p' := LateInitializeHook f p (Some h) in
  LateInitializeHook f p' (Some h')
    = {| URL := URL p'; ConfidentialNoteEvents := ConfidentialNoteEvents p';
         PushEvents := PushEvents p';
         PushEventsBranchFilter :=
           f (PushEventsBranchFilter p') (phPushEventsBranchFilter h');
         IssuesEvents := IssuesEvents p';
         ConfidentialIssuesEvents := ConfidentialIssuesEvents p';
         MergeRequestsEvents := MergeRequestsEvents p'; TagPushEvents := TagPushEvents p';
         NoteEvents := NoteEvents p'; JobEvents := JobEvents p';
         PipelineEvents := PipelineEvents p'; WikiPageEvents := WikiPageEvents p';
         EnableSSLVerification := EnableSSLVerification p'; Token := Token p' |}
  ∧ LateInitializeHook f p' None = p'
  ∧ is_Some (ConfidentialNoteEvents p') ∧ is_Some (PushEvents p')
  ∧ is_Some (IssuesEvents p') ∧ is_Some (ConfidentialIssuesEvents p')
  ∧ is_Some (MergeRequestsEvents p') ∧ is_Some (TagPushEvents p')
  ∧ is_Some (NoteEvents p') ∧ is_Some (JobEvents p') ∧ is_Some (PipelineEvents p')
  ∧ is_Some (WikiPageEvents p') ∧ is_Some (EnableSSLVerification p').
Proof.
  assert (∀ (field : option bool) r r', lateInit (lateInit field r) r' = lateInit field r)
    as Hstable by (by intros [b|]).
  assert (∀ (field : option bool) r, is_Some (lateInit field r))
    as Hset by (by intros [b|]).
  simpl. split; [by rewrite !Hstable|]. split; [done|]. repeat split; apply Hset.
Qed.

Section Drift.
Variable StringToPtr : string → option string.
Variable IsBoolEqualToBoolPtr : option bool → bool → bool.

Local Abbreviation upToDate := (IsHookUpToDate StringToPtr IsBoolEqualToBoolPtr).

Lemma if_negb_false (b rest : bool) :
  (if negb b then false else rest) = true ↔ b = true ∧ rest = true.
Proof. destruct b; simpl; [tauto | split; [done | intros [? _]; done]]. Qed.

(** X6. [IsHookUpToDate] is the conjunction of its thirteen comparisons, and
    the token takes no part in it: the answer is true exactly when the two
    string pointers [URL] and [PushEventsBranchFilter] equal what
    [clients.StringToPtr] makes of the remote strings and
    [clients.IsBoolEqualToBoolPtr] accepts each of the eleven flags; a spec
    with another token, and a remote hook with another id or creation time,
    get the same answer. *)
Theorem IsHookUpToDate_iff (p : HookParameters) (g : ProjectHook) :
  (upToDate p g = true ↔
     ptrEqual String.eqb (URL p) (StringToPtr (phURL g)) = true
     ∧ IsBoolEqualToBoolPtr (ConfidentialNoteEvents p) (phConfidentialNoteEvents g) = true
     ∧ IsBoolEqualToBoolPtr (PushEvents p) (phPushEvents g) = true
     ∧ ptrEqual String.eqb (PushEventsBranchFilter p)
         (StringToPtr (phPushEventsBranchFilter g)) = true
     ∧ IsBoolEqualToBoolPtr (IssuesEvents p) (phIssuesEvents g) = true
     ∧ IsBoolEqualToBoolPtr (ConfidentialIssuesEvents p) (phConfidentialIssuesEvents g) = true
     ∧ IsBoolEqualToBoolPtr (MergeRequestsEvents p) (phMergeRequestsEvents g) = true
     ∧ IsBoolEqualToBoolPtr (TagPushEvents p) (phTagPushEvents g) = true
     ∧ IsBoolEqualToBoolPtr (NoteEvents p) (phNoteEvents g) = true
     ∧ IsBoolEqualToBoolPtr (JobEvents p) (phJobEvents g) = true
     ∧ IsBoolEqualToBoolPtr (PipelineEvents p) (phPipelineEvents g) = true
     ∧ IsBoolEqualToBoolPtr (WikiPageEvents p) (phWikiPageEvents g) = true
     ∧ IsBoolEqualToBoolPtr (EnableSSLVerification p) (phEnableSSLVerification g) = true)
  ∧ (∀ token id created,
       upToDate
         {| URL := URL p; ConfidentialNoteEvents := ConfidentialNoteEvents p;
            PushEvents := PushEvents p; PushEventsBranchFilter := PushEventsBranchFilter p;
            IssuesEvents := IssuesEvents p;
            ConfidentialIssuesEvents := ConfidentialIssuesEvents p;
            MergeRequestsEvents := MergeRequestsEvents p; TagPushEvents := TagPushEvents p;
            NoteEvents := NoteEvents p; JobEvents := JobEvents p;
            PipelineEvents := PipelineEvents p; WikiPageEvents := WikiPageEvents p;
            EnableSSLVerification := EnableSSLVerification p; Token := token |}
         {| phID := id; phURL := phURL g;
            phConfidentialNoteEvents := phConfidentialNoteEvents g;
            phPushEvents := phPushEvents g;
            phPushEventsBranchFilter := phPushEventsBranchFilter g;
            phIssuesEvents := phIssuesEvents g;
            phConfidentialIssuesEvents := phConfidentialIssuesEvents g;
            phMergeRequestsEvents := phMergeRequestsEvents g;
            phTagPushEvents := phTagPushEvents g; phNoteEvents := phNoteEvents g;
            phJobEvents := phJobEvents g; phPipelineEvents := phPipelineEvents g;
            phWikiPageEvents := phWikiPageEvents g;
            phEnableSSLVerification := phEnableSSLVerification g;
            phCreatedAt := created |}
       = upToDate p g).
Proof.
  split; [|done]. unfold IsHookUpToDate. rewrite !if_negb_false.
  split.
  - intros (H1 & H2 & H3 & H4 & H5 & H6 & H7 & H8 & H9 & H10 & H11 & H12 & H13 & _).
    repeat split; assumption.
  - intros (H1 & H2 & H3 & H4 & H5 & H6 & H7 & H8 & H9 & H10 & H11 & H12 & H13).
    repeat split; assumption.
Qed.

Lemma lateInit_accepted (field : option bool) (remote : bool) :
  (∀ b, IsBoolEqualToBoolPtr (Some b) b = true) →
  IsBoolEqualToBoolPtr (lateInit field remote) remote = true ↔
    field = None ∨ IsBoolEqualToBoolPtr field remote = true.
Proof.
  intros Hsame. destruct field as [b|]; simpl.
  - split; [by right | by intros [?|?]].
  - split; [by left | intros _; apply Hsame].
Qed.

(** X7. Late initialisation introduces no drift in the flags.  Provided
    [clients.IsBoolEqualToBoolPtr] accepts a pointer to the very value it is
    compared with, a spec late initialised from the remote hook [h] is up to
    date against [h] exactly when its URL and its late initialised branch
    filter pass their comparisons and each flag the spec had set before is
    accepted; the flags that were nil cannot make the answer false. *)
Theorem IsHookUpToDate_after_late_initialization
    (f : option string → string → option string) (p : HookParameters) (h : ProjectHook) :
  (∀ b, IsBoolEqualToBoolPtr (Some b) b = true) →
  upToDate (LateInitializeHook f p (Some h)) h = true ↔
    ptrEqual String.eqb (URL p) (StringToPtr (phURL h)) = true
    ∧ ptrEqual String.eqb (f (PushEventsBranchFilter p) (phPushEventsBranchFilter h))
        (StringToPtr (phPushEventsBranchFilter h)) = true
    ∧ (ConfidentialNoteEvents p = None
       ∨ IsBoolEqualToBoolPtr (ConfidentialNoteEvents p) (phConfidentialNoteEvents h) = true)
    ∧ (PushEvents p = None ∨ IsBoolEqualToBoolPtr (PushEvents p) (phPushEvents h) = true)
    ∧ (IssuesEvents p = None
       ∨ IsBoolEqualToBoolPtr (IssuesEvents p) (phIssuesEvents h) = true)
    ∧ (ConfidentialIssuesEvents p = None
       ∨ IsBoolEqualToBoolPtr (ConfidentialIssuesEvents p) (phConfidentialIssuesEvents h)
         = true)
    ∧ (MergeRequestsEvents p = None
       ∨ IsBoolEqualToBoolPtr (MergeRequestsEvents p) (phMergeRequestsEvents h) = true)
    ∧ (TagPushEvents p = None
       ∨ IsBoolEqualToBoolPtr (TagPushEvents p) (phTagPushEvents h) = true)
    ∧ (NoteEvents p = None ∨ IsBoolEqualToBoolPtr (NoteEvents p) (phNoteEvents h) = true)
    ∧ (JobEvents p = None ∨ IsBoolEqualToBoolPtr (JobEvents p) (phJobEvents h) = true)
    ∧ (PipelineEvents p = None
       ∨ IsBoolEqualToBoolPtr (PipelineEvents p) (phPipelineEvents h) = true)
    ∧ (WikiPageEvents p = None
       ∨ IsBoolEqualToBoolPtr (WikiPageEvents p) (phWikiPageEvents h) = true)
    ∧ (EnableSSLVerification p = None
       ∨ IsBoolEqualToBoolPtr (EnableSSLVerification p) (phEnableSSLVerification h) = true).
Proof.
  intros Hsame. unfold IsHookUpToDate. rewrite !if_negb_false. simpl.
  rewrite !(lateInit_accepted _ _ Hsame).
  split.
  - intros (H1 & H2 & H3 & H4 & H5 & H6 & H7 & H8 & H9 & H10 & H11 & H12 & H13 & _).
    repeat split; assumption.
  - intros (H1 & H2 & H3 & H4 & H5 & H6 & H7 & H8 & H9 & H10 & H11 & H12 & H13).
    repeat split; assumption.
Qed.

End Drift.

(** X7 at a spec that sets the URL and one flag, against a remote hook with
    that URL, that flag, a branch filter and the other flags on: the nil
    branch filter is drift before late initialisation and none after. *)
Lemma IsHookUpToDate_after_late_initialization_witness :
  let h := MoreFixtures.hook "https://my-project.example.com" "foo" true in
  let p := MoreFixtures.hookSpec (Some "https://my-project.example.com") (Some true) in
  IsHookUpToDate MoreFixtures.stringToPtr MoreFixtures.isBoolEqualToBoolPtr p h = false
  ∧ IsHookUpToDate MoreFixtures.stringToPtr MoreFixtures.isBoolEqualToBoolPtr
      (LateInitializeHook Fixtures.lateInitializeStringPtr p (Some h)) h = true.
Proof.
  intros h p. split; [reflexivity|].
  apply (IsHookUpToDate_after_late_initialization MoreFixtures.stringToPtr
           MoreFixtures.isBoolEqualToBoolPtr Fixtures.lateInitializeStringPtr p h).
  - intros []; reflexivity.
  - vm_compute. intuition.
Defined.

(** The cases SameFields and DifferentFields of the drift test. *)
Example IsHookUpToDate_test_cases :
  let p :=
    {| URL := Some "https://my-project.example.com"; ConfidentialNoteEvents := Some true;
       PushEvents := Some true; PushEventsBranchFilter := Some "foo";
       IssuesEvents := Some true; ConfidentialIssuesEvents := Some true;
       MergeRequestsEvents := Some true; TagPushEvents := Some true;
       NoteEvents := Some true; JobEvents := Some true; PipelineEvents := Some true;
       WikiPageEvents := Some true; EnableSSLVerification := Some true;
       Token := Some "84B9C651-9025-47D2-9124-DD951BD268E8" |} in
  IsHookUpToDate MoreFixtures.stringToPtr MoreFixtures.isBoolEqualToBoolPtr p
    (MoreFixtures.hook "https://my-project.example.com" "foo" true) = true
  ∧ IsHookUpToDate MoreFixtures.stringToPtr MoreFixtures.isBoolEqualToBoolPtr p
      (MoreFixtures.hook "http://some.other.url" "bar" false) = false.
Proof. done. Qed.

End HookMore.

(** ** The group member controller: what each method does to GitLab and to
    the resource *)

Module MemberMore.
Import Go Xp Gitlab GroupMemberTypes Members.

Lemma app_singleton_ne {A : Type} (l : list A) (x : A) : l ++ [x] ≠ l.
Proof.
  intros Heq. apply (f_equal length) in Heq. rewrite length_app in Heq. simpl in Heq. lia.
Qed.

Section Methods.
Context `{GroupsPkg}.

(** X8. The two guards of the member controller.  Given what is no member
    (the nil interface, a resource of another kind), or a member whose group
    id is nil, each of [Observe], [Create], [Update] and [Delete] returns the
    empty result and the plain error of the guard that failed, leaves the
    resource as it was and makes no call. *)
Theorem Members_guards (e : external) (mg : Managed Member) (msg : string)
    (log : list Call) :
  ((∀ cr, mg ≠ managed cr) ∧ msg = errNotMember)
  ∨ (∃ cr, mg = managed cr ∧ GroupID (ForProvider (Spec cr)) = None
           ∧ msg = errMissingGroupID) →
  Observe e mg log = (Returns (mg, noObservation, Some (fundamental msg)), log)
  ∧ Create e mg log = (Returns (mg, noCreation, Some (fundamental msg)), log)
  ∧ Update e mg log = (Returns (mg, noUpdate, Some (fundamental msg)), log)
  ∧ Delete e mg log = (Returns (mg, (), Some (fundamental msg)), log).
Proof.
  intros [[Hnot ->] | (cr & -> & Hnil & ->)].
  - by apply MemberFacts.Members_not_a_member.
  - by apply MemberFacts.Members_group_id_not_set.
Qed.

(** X9. [Create] of a member with a group id makes exactly one call, the
    request to add the user with the options generated from the spec, and
    leaves the resource as it was, annotations included.  When the request
    fails it returns the empty result and the error wrapped in the
    create-failed message; when it succeeds it returns no error and reports
    the external name as assigned, although it has set no annotation. *)
Theorem Members_Create (e : external) (cr : Member) (gid : Z) (log : list Call) :
  GroupID (ForProvider (Spec cr)) = Some gid →
  let opt := GenerateAddMemberOptions (ForProvider (Spec cr)) in
  let err := (AddGroupMember (client e) gid opt).2 in
  Create e (managed cr) log =
    (Returns (managed cr,
              match err with
              | Some _ => noCreation
              | None => {| ExternalNameAssigned := true; CreatedConnectionDetails := ∅ |}
              end,
              Wrap err errCreateFailed),
     log ++ [CallAddGroupMember gid opt])
  ∧ (Wrap err errCreateFailed = None ↔ err = None).
Proof.
  intros Hgid opt err. unfold Create. rewrite Hgid.
  unfold mbind, Op_bind, perform. subst err opt.
  destruct (AddGroupMember _ _ _) as [[gm res] [err|]]; simpl; by repeat split.
Qed.

(** X10. [Update] and [Delete] of a member with a group id make exactly one
    call each (the edit request with the options generated from the spec,
    the removal request for the user) and leave the resource as it was.
    Their error is nil exactly when the error of the request is nil, since
    wrapping nil gives nil; otherwise it is that error wrapped in the
    update-failed or delete-failed message. *)
Theorem Members_Update_Delete (e : external) (cr : Member) (gid : Z) (log : list Call) :
  GroupID (ForProvider (Spec cr)) = Some gid →
  let user := UserID (ForProvider (Spec cr)) in
  let opt := GenerateEditMemberOptions (ForProvider (Spec cr)) in
  let editErr := (EditGroupMember (client e) gid user opt).2 in
  let removeErr := (RemoveGroupMember (client e) gid user).2 in
  Update e (managed cr) log =
    (Returns (managed cr, noUpdate, Wrap editErr errUpdateFailed),
     log ++ [CallEditGroupMember gid user opt])
  ∧ Delete e (managed cr) log =
    (Returns (managed cr, (), Wrap removeErr errDeleteFailed),
     log ++ [CallRemoveGroupMember gid user])
  ∧ (Wrap editErr errUpdateFailed = None ↔ editErr = None)
  ∧ (Wrap removeErr errDeleteFailed = None ↔ removeErr = None)
  ∧ (∀ err, editErr = Some err →
            Wrap editErr errUpdateFailed = Some (withStack err errUpdateFailed))
  ∧ (∀ err, removeErr = Some err →
            Wrap removeErr errDeleteFailed = Some (withStack err errDeleteFailed)).
Proof.
  intros Hgid user opt editErr removeErr. unfold Update, Delete. rewrite Hgid.
  unfold mbind, Op_bind, perform. subst editErr removeErr opt user.
  destruct (EditGroupMember _ _ _ _) as [[gm res] [err1|]];
    destruct (RemoveGroupMember _ _ _) as [res' [err2|]]; simpl;
    repeat split; try done; by intros ? [= ->].
Qed.

(** X11. [Observe] only reads.  Whatever the resource and the answers of
    the client, it makes no call or the one GET for the member.  When it
    returns, it never reports a late initialisation and never returns
    connection details; unless it reports that the member exists, the
    resource is as it was and the observation is empty; and when it reports
    that the member exists, the GET answered with a member and no error, it
    returns no error, the spec and the metadata of the resource are as they
    were, the observed state is the one generated from that member, the
    condition Available was set on its status, and the up-to-date flag is
    the drift check of the spec against that member. *)
Theorem Members_Observe_only_reads (e : external) (mg : Managed Member) (log : list Call) :
  let '(out, log') := Observe e mg log in
  (log' = log ∨ ∃ gid user, log' = log ++ [CallGetGroupMember gid user])
  ∧ match out with
    | Panics => True
    | Returns (mg', o, err) =>
        ResourceLateInitialized o = false
        ∧ ObservedConnectionDetails o = ∅
        ∧ (ResourceExists o = false → mg' = mg ∧ o = noObservation)
        ∧ (ResourceExists o = true →
           err = None
           ∧ ∃ cr cr' gid g res,
               mg = managed cr ∧ mg' = managed cr'
               ∧ GetGroupMember (client e) gid (UserID (ForProvider (Spec cr)))
                 = (Some g, res, None)
               ∧ Spec cr' = Spec cr ∧ Meta cr' = Meta cr
               ∧ AtProvider (Status cr') = GenerateMemberObservation (Some g)
               ∧ Conditions (Status cr')
                 = SetConditions (Conditions (Status cr)) [Available]
               ∧ ResourceUpToDate o = isMemberUpToDate (ForProvider (Spec cr)) g)
    end.
Proof.
  destruct mg as [|cr|kind]; simpl; try (split; [by left | by repeat split]).
  unfold Observe. destruct (GroupID (ForProvider (Spec cr))) as [gid|]; simpl;
    [|split; [by left | by repeat split]].
  unfold mbind, Op_bind, perform.
  destruct (GetGroupMember _ _ _) as [[gm res] [err|]] eqn:Hget; simpl.
  - destruct (Clients.IsResponseNotFound res); simpl;
      (split; [right; eauto | by repeat split]).
  - destruct gm as [g|]; simpl; (split; [right; eauto|]); [|done].
    repeat split; try done. exists cr; eexists; exists gid, g, res. by repeat split.
Qed.


End Methods.

(** X8 at the nil interface and at a member without a group id. *)
Lemma Members_guards_witness :
  let e := {| client := MoreFixtures.memberClient None None |} in
  Observe (H := Fixtures.groupsPkg) e nilManaged []
    = (Returns (nilManaged, noObservation,
                Some (fundamental
                        "managed resource is not a Gitlab Group Member custom resource")), [])
  ∧ Delete e (managed (Fixtures.member None)) []
    = (Returns (managed (Fixtures.member None), (),
                Some (fundamental "Group ID not set")), []).
Proof.
  intros e. split.
  - refine (proj1 (@Members_guards Fixtures.groupsPkg e nilManaged errNotMember [] _)).
    left. split; [intros cr; discriminate | reflexivity].
  - refine (proj2 (proj2 (proj2 (@Members_guards Fixtures.groupsPkg e
                                   (managed (Fixtures.member None)) errMissingGroupID [] _)))).
    right. exists (Fixtures.member None). repeat split; reflexivity.
Defined.

(** X9 at a member of group 7: a request that succeeds, and one that fails
    with boom. *)
Lemma Members_Create_witness :
  let cr := Fixtures.member (Some 7) in
  let opt := {| addUserID := Some 42; addAccessLevel := Some 30; addExpiresAt := None |} in
  Create (H := Fixtures.groupsPkg) {| client := MoreFixtures.memberClient None None |}
      (managed cr) []
    = (Returns (managed cr,
                {| ExternalNameAssigned := true; CreatedConnectionDetails := ∅ |}, None),
       [CallAddGroupMember 7 opt])
  ∧ Create (H := Fixtures.groupsPkg)
      {| client := MoreFixtures.memberClient None (Some Fixtures.errBoom) |} (managed cr) []
    = (Returns (managed cr, noCreation,
                Some (withStack Fixtures.errBoom "cannot create Gitlab Group Member")),
       [CallAddGroupMember 7 opt]).
Proof.
  intros cr opt. split.
  - exact (proj1 (@Members_Create Fixtures.groupsPkg
                    {| client := MoreFixtures.memberClient None None |} cr 7 [] eq_refl)).
  - exact (proj1 (@Members_Create Fixtures.groupsPkg
                    {| client := MoreFixtures.memberClient None (Some Fixtures.errBoom) |}
                    cr 7 [] eq_refl)).
Defined.

(** X10 at a member of group 7: an update that fails with boom, and a
    removal that succeeds. *)
Lemma Members_Update_Delete_witness :
  let cr := Fixtures.member (Some 7) in
  Update (H := Fixtures.groupsPkg)
      {| client := MoreFixtures.memberClient None (Some Fixtures.errBoom) |} (managed cr) []
    = (Returns (managed cr, noUpdate,
                Some (withStack Fixtures.errBoom "cannot update Gitlab Group Member")),
       [CallEditGroupMember 7 42 {| editAccessLevel := Some 30; editExpiresAt := None |}])
  ∧ Delete {| client := MoreFixtures.memberClient None None |}
      (managed cr) []
    = (Returns (managed cr, (), None), [CallRemoveGroupMember 7 42]).
Proof.
  intros cr. split.
  - exact (proj1 (@Members_Update_Delete Fixtures.groupsPkg
                    {| client := MoreFixtures.memberClient None (Some Fixtures.errBoom) |}
                    cr 7 [] eq_refl)).
  - exact (proj1 (proj2 (@Members_Update_Delete Fixtures.groupsPkg
                           {| client := MoreFixtures.memberClient None None |}
                           cr 7 [] eq_refl))).
Defined.

(** X11 at a member of group 7 whose GET answers with status 500 and boom:
    one call, the resource as it was, the empty observation. *)
Lemma Members_Observe_only_reads_witness :
  let e := {| client := Fixtures.failingMemberClient 500 Fixtures.errBoom |} in
  let mg := managed (Fixtures.member (Some 7)) in
  let '(out, log') := Observe (H := Fixtures.groupsPkg) e mg [] in
  (log' = [] ∨ ∃ gid user, log' = [] ++ [CallGetGroupMember gid user])
  ∧ match out with
    | Panics => True
    | Returns (mg', o, err) =>
        ResourceLateInitialized o = false
        ∧ ObservedConnectionDetails o = ∅
        ∧ (ResourceExists o = false → mg' = mg ∧ o = noObservation)
        ∧ (ResourceExists o = true →
           err = None
           ∧ ∃ cr cr' gid g res,
               mg = managed cr ∧ mg' = managed cr'
               ∧ GetGroupMember (client e) gid (UserID (ForProvider (Spec cr)))
                 = (Some g, res, None)
               ∧ Spec cr' = Spec cr ∧ Meta cr' = Meta cr
               ∧ AtProvider (Status cr')
                 = @GenerateMemberObservation Fixtures.groupsPkg (Some g)
               ∧ Conditions (Status cr')
                 = SetConditions (Conditions (Status cr)) [Available]
               ∧ ResourceUpToDate o = isMemberUpToDate (ForProvider (Spec cr)) g)
    end.
Proof.
  exact (@Members_Observe_only_reads Fixtures.groupsPkg
           {| client := Fixtures.failingMemberClient 500 Fixtures.errBoom |}
           (managed (Fixtures.member (Some 7))) []).
Defined.

(** A GET that finds the member: the status is set, the drift check runs.
    A GET that answers with nothing at all: the panic of X12. *)
Example Members_Observe_cases :
  let g := {| gmID := 42; gmUsername := "user"; gmName := "Name"; gmState := "active";
              gmAvatarURL := ""; gmWebURL := ""; gmExpiresAt := None; gmAccessLevel := 30;
              gmGroupSAMLIdentity := None |} in
  let cr := Fixtures.member (Some 7) in
  (∃ cr',
     Observe (H := Fixtures.groupsPkg) {| client := MoreFixtures.memberClient (Some g) None |}
       (managed cr) []
     = (Returns (managed cr',
                 {| ResourceExists := true; ResourceUpToDate := true;
                    ResourceLateInitialized := false; ObservedConnectionDetails := ∅ |},
                 None), [CallGetGroupMember 7 42])
     ∧ Conditions (Status cr') = [Available]
     ∧ Username (AtProvider (Status cr')) = "user")
  ∧ Observe (H := Fixtures.groupsPkg) {| client := MoreFixtures.memberClient None None |}
      (managed cr) []
    = (Panics, [CallGetGroupMember 7 42]).
Proof. split; [eexists; repeat split|]; reflexivity. Qed.

Section Connecting.
Variable Config : Type.
Variable GetConfig : Member → option Config * option error.

Local Abbreviation Connect := (MembersConnect.Connect Config GetConfig).

(** X13. [Connect] builds a client exactly for a member whose configuration
    was read without an error, with the constructor of the connector applied
    to that configuration.  What is no member gets the plain not-a-member
    error, whatever reading a configuration would give; the error of reading
    the configuration is returned as it is, not wrapped, and without a
    client; a client and an error never come together. *)
Theorem Connect_cases (c : MembersConnect.connector Config) (mg : Managed Member) :
  ((∀ cr, mg ≠ managed cr) → Connect c mg = Returns (None, Some (fundamental errNotMember)))
  ∧ (∀ cr cfg err, mg = managed cr → GetConfig cr = (cfg, Some err) →
       Connect c mg = Returns (None, Some err))
  ∧ (∀ cr cfg, mg = managed cr → GetConfig cr = (Some cfg, None) →
       Connect c mg
       = Returns (Some {| client := MembersConnect.newGitlabClientFn Config c cfg |}, None))
  ∧ (∀ ext err, Connect c mg = Returns (Some ext, err) →
       err = None ∧ ∃ cr cfg, mg = managed cr ∧ GetConfig cr = (Some cfg, None)
                      ∧ ext = {| client := MembersConnect.newGitlabClientFn Config c cfg |})
  ∧ (Connect c mg = Panics ↔ ∃ cr, mg = managed cr ∧ GetConfig cr = (None, None)).
Proof.
  split; [|split; [|split; [|split]]].
  - intros Hnot. destruct mg as [|cr|kind]; [done | by destruct (Hnot cr) | done].
  - intros cr cfg err -> Hcfg. unfold MembersConnect.Connect. rewrite Hcfg.
    by destruct cfg.
  - intros cr cfg -> Hcfg. unfold MembersConnect.Connect. by rewrite Hcfg.
  - intros ext err Hconnect. destruct mg as [|cr|kind]; simpl in Hconnect; try done.
    destruct (GetConfig cr) as [[cfg|] [e'|]] eqn:Hcfg; try done.
    injection Hconnect as <- <-. split; [done|]. by exists cr, cfg.
  - split.
    + destruct mg as [|cr|kind]; simpl; try done.
      destruct (GetConfig cr) as [[cfg|] [e'|]] eqn:Hcfg; try done. intros _. by exists cr.
    + intros (cr & -> & Hcfg). unfold MembersConnect.Connect. by rewrite Hcfg.
Qed.

End Connecting.

(** X13 with a configuration that is a token: a member whose configuration
    is read gets a client, one whose configuration cannot be read gets the
    error of the reading as it is. *)
Lemma Connect_cases_witness :
  let c := {| MembersConnect.newGitlabClientFn :=
                λ _ : string, MoreFixtures.memberClient None None |} in
  let cr := Fixtures.member (Some 7) in
  MembersConnect.Connect string (λ _, (Some "token", None)) c (managed cr)
    = Returns (Some {| client := MoreFixtures.memberClient None None |}, None)
  ∧ MembersConnect.Connect string (λ _, (None, Some Fixtures.errBoom)) c (managed cr)
    = Returns (None, Some Fixtures.errBoom).
Proof.
  intros c cr. split.
  - exact (proj1 (proj2 (proj2 (Connect_cases string (λ _, (Some "token", None)) c
                                  (managed cr)))) cr "token" eq_refl eq_refl).
  - exact (proj1 (proj2 (Connect_cases string (λ _, (None, Some Fixtures.errBoom)) c
                           (managed cr))) cr None Fixtures.errBoom eq_refl eq_refl).
Defined.

End MemberMore.
